(** * geotools: raster reprojection, resampling and clipping scripts

    A shallow embedding of the three batch scripts

      - [ProjTransformer.py]  (batch reprojection, GDAL),
      - [重采样.py]            (batch resampling, GDAL),
      - [批量裁剪.py]          (batch clipping, rasterio),

    and the properties of them that the specification states.

    Conventions of the embedding.
      - Python [float]s are exact rationals ([Qc]); [int]s are [Z].
      - Python exceptions are the constructors of [exn]; a computation is
        a function from a world to a result and a world ([M]).
      - The raster codecs (gdal.Warp, rasterio.mask.mask, the GeoTIFF
        writer) and the operating system are not part of the repository:
        they are the fields of the class [Backend], and every theorem is
        stated for an arbitrary backend. *)

From Stdlib Require Import Ascii String QArith Qcanon Qcabs Qround.
From stdpp Require Import base strings list gmap pretty.

Local Open Scope Z_scope.

(** ** Strings *)

Module Str.

Local Open Scope string_scope.

Fixpoint drop (n : nat) (s : string) : string :=
  match n, s with
  | O, _ => s
  | S _, EmptyString => EmptyString
  | S n', String _ s' => drop n' s'
  end.

(** [s.endswith(suf)] *)
Definition endswith (s suf : string) : bool :=
  (String.length suf <=? String.length s)%nat
  && String.eqb (drop (String.length s - String.length suf) s) suf.

(** [s.startswith(pre)] *)
Definition startswith (s pre : string) : bool := String.prefix pre s.

(** [c.lower()] on one ASCII character; other bytes are left alone. *)
Definition lower_ascii (c : ascii) : ascii :=
  let n := Ascii.nat_of_ascii c in
  if ((65 <=? n) && (n <=? 90))%nat then Ascii.ascii_of_nat (n + 32) else c.

(** [s.lower()] *)
Fixpoint lower (s : string) : string :=
  match s with
  | EmptyString => EmptyString
  | String c s' => String (lower_ascii c) (lower s')
  end.

(** [s.replace(a, b)] for single characters. *)
Fixpoint replace_char (a b : ascii) (s : string) : string :=
  match s with
  | EmptyString => EmptyString
  | String c s' =>
      String (if Ascii.eqb c a then b else c) (replace_char a b s')
  end.

(** The text after the last occurrence of a character satisfying [p]
    (the whole string when there is none). *)
Fixpoint after_last (p : ascii -> bool) (s : string) : string :=
  match s with
  | EmptyString => EmptyString
  | String c s' =>
      if existsb p (list_ascii_of_string s') then after_last p s'
      else if p c then s' else s
  end.

(** The text before the last occurrence of a character satisfying [p]
    (empty when there is none). *)
Fixpoint before_last (p : ascii -> bool) (s : string) : string :=
  match s with
  | EmptyString => EmptyString
  | String c s' =>
      if existsb p (list_ascii_of_string s') then String c (before_last p s')
      else EmptyString
  end.

(** [fnmatch] restricted to the wildcards [*] and [?]; the scripts use
    the single pattern [*.tif]. *)
Fixpoint fnmatch (pat : string) : string -> bool :=
  match pat with
  | EmptyString =>
      fun s => match s with EmptyString => true | _ => false end
  | String c pat' =>
      if Ascii.eqb c "*" then
        fix star (s : string) : bool :=
          fnmatch pat' s
          || match s with
             | EmptyString => false
             | String _ s' => star s'
             end
      else if Ascii.eqb c "?" then
        fun s => match s with
                 | EmptyString => false
                 | String _ s' => fnmatch pat' s'
                 end
      else
        fun s => match s with
                 | EmptyString => false
                 | String d s' => Ascii.eqb c d && fnmatch pat' s'
                 end
  end.

End Str.

(** ** Platform-dependent path functions ([os.path], [glob]) *)

Inductive platform := Posix | Nt.

Module Path.

Local Open Scope string_scope.

Definition sep (pf : platform) : string :=
  match pf with Posix => "/" | Nt => "\" end.

Definition is_sep (pf : platform) (c : ascii) : bool :=
  match pf with
  | Posix => Ascii.eqb c "/"
  | Nt => Ascii.eqb c "/" || Ascii.eqb c "\"
  end.

Definition ends_with_sep (pf : platform) (a : string) : bool :=
  match pf with
  | Posix => Str.endswith a "/"
  | Nt => Str.endswith a "/" || Str.endswith a "\" || Str.endswith a ":"
  end.

(** [os.path.join(a, b)] for a relative [b] without a drive (the
    scripts join a directory with a name that [os.listdir] returned or
    with a base name). *)
Definition join (pf : platform) (a b : string) : string :=
  if String.eqb a "" then b
  else if ends_with_sep pf a then a +:+ b
  else a +:+ sep pf +:+ b.

(** [os.path.basename(p)]: what follows the last separator. *)
Definition basename (pf : platform) (p : string) : string :=
  Str.after_last (is_sep pf) p.

(** [os.path.dirname(p)] for a path without a drive and whose directory
    part is not a run of separators. *)
Definition dirname (pf : platform) (p : string) : string :=
  Str.before_last (is_sep pf) p.

(** [os.path.normcase]: the identity on POSIX; lower case and
    backslashes on Windows. *)
Definition normcase (pf : platform) (s : string) : string :=
  match pf with
  | Posix => s
  | Nt => Str.replace_char "/" "\" (Str.lower s)
  end.

(** [glob._ishidden] *)
Definition ishidden (name : string) : bool := Str.startswith name ".".

(** [fnmatch.filter(names, pat)] *)
Definition fnmatch_filter (pf : platform) (names : list string)
    (pat : string) : list string :=
  List.filter (fun n => Str.fnmatch (normcase pf pat) (normcase pf n)) names.

(** [glob.glob(os.path.join(dirname, pat))] for a pattern with no
    wildcard in its directory part, given the directory's listing
    ([None] when the directory cannot be listed: glob then finds
    nothing). *)
Definition glob (pf : platform) (listing : option (list string))
    (dir pat : string) : list string :=
  let names := default [] listing in
  let names :=
    if ishidden pat then names
    else List.filter (fun n => negb (ishidden n)) names in
  List.map (join pf dir) (fnmatch_filter pf names pat).

End Path.

(** ** Numbers *)

Module Num.

Local Open Scope Qc_scope.

(** [float(n)] of an [int] *)
Definition of_int (n : Z) : Qc := Qc_of_Z n.

(** [int(x)] of a [float]: truncation toward zero. *)
Definition int (x : Qc) : Z :=
  if decide (0 <= x) then Qfloor x else Qceiling x.

Definition min (x y : Qc) : Qc := if decide (x <= y) then x else y.
Definition max (x y : Qc) : Qc := if decide (x <= y) then y else x.

(** [abs(x)] *)
Definition abs (x : Qc) : Qc := Qcabs x.

End Num.

(** A Python [float] as [float(text)] returns it: a number, or one of the
    values that texts such as ["inf"], ["-inf"], ["1e400"] and ["nan"]
    convert to. *)
Inductive pyfloat :=
| Finite (q : Qc)
| Infinity (negative : bool)
| NaN.

(** ** The data the scripts handle *)

(** The six coefficients of a raster's pixel-to-world mapping, in the
    order of GDAL's [GetGeoTransform()] tuple. *)
Record AffineGrid := {
  origin_x : Qc;        (* [0] *)
  pixel_width : Qc;     (* [1] *)
  row_rotation : Qc;    (* [2] *)
  origin_y : Qc;        (* [3] *)
  column_rotation : Qc; (* [4] *)
  pixel_height : Qc     (* [5] *)
}.

(** A numpy array of shape [(bands, rows, cols)]. *)
Record ndarray := {
  shape0 : Z;
  shape1 : Z;
  shape2 : Z;
  values : list Qc
}.

(** rasterio's [dataset.meta] dictionary. *)
Record meta := {
  driver : string;
  dtype : string;
  nodata : option Qc;
  width : Z;
  height : Z;
  count : Z;
  crs : string;
  transform : AffineGrid
}.

(** A raster as a dataset handle shows it. *)
Record raster := {
  r_meta : meta;
  r_pixels : ndarray
}.

(** What a path of the file system holds: a readable raster, or
    something that no raster driver opens. *)
Inductive file :=
| Raster (r : raster)
| Unreadable.

(** One polygon of the clip boundary: its vertices. *)
Definition shape : Type := list (Qc * Qc).

(** [osr.SpatialReference] after [ImportFromWkt]. *)
Record SpatialReference := { wkt : string }.

Inductive GRA :=
| GRA_NearestNeighbour | GRA_Bilinear | GRA_Cubic | GRA_Average | GRA_Mode.

Inductive GDT := GDT_Float32.

(** The keyword arguments the scripts give to [gdal.WarpOptions]; an
    argument a script does not give is [None]. *)
Record WarpOptions := {
  format : option string;
  xRes : option Qc;
  yRes : option Qc;
  resampleAlg : option GRA;
  outputBounds : option (Qc * Qc * Qc * Qc);
  outputType : option GDT;
  srcSRS : option SpatialReference;
  dstSRS : option SpatialReference;
  dstNodata : option Qc;
  creationOptions : option (list string);
  multithread : option bool;
  warpMemoryLimit : option Z
}.

(** The arguments of [rasterio.mask.mask] after the dataset and the
    shapes. *)
Record MaskArgs := {
  crop : bool;
  mask_transform : option AffineGrid;
  all_touched : bool;
  mask_nodata : option Qc
}.

(** Python exceptions (all of them subclasses of [Exception]). *)
Inductive exn :=
| ValueError (msg : string)
| ZeroDivisionError (msg : string)
| AttributeError (msg : string)
| FileNotFoundError (msg : string)
| OSError (msg : string)
| TypeError (msg : string)
| OverflowError (msg : string)
| LibraryError (msg : string).

(** What the scripts print or log.  A line is kept as its kind and the
    values interpolated into its text. *)
Inductive line :=
| Info (msg : string)
| Warning (msg : string)
| ClipError (input_raster : string) (e : exn)
| ClipUnexpected (filename : string) (e : exn)
| ClipSummary (total successful failed : Z) (reference : string)
| ClipCritical (e : exn)
| ResampleError (basename : string) (e : exn)
| ResampleFound (n : Z)
| ResampleDone (output_folder : string)
| Printed (msg : string).

Record world := {
  files : gmap string file;
  console : list line
}.

(** ** Computations *)

Inductive res (A : Type) :=
| Ok (a : A)
| Raise (e : exn)
| Exit (code : Z).
Arguments Ok {A} a.
Arguments Raise {A} e.
Arguments Exit {A} code.

Definition M (A : Type) : Type := world -> res A * world.

Definition ret {A} (a : A) : M A := fun w => (Ok a, w).

Definition bind {A B} (m : M A) (k : A -> M B) : M B :=
  fun w =>
    match m w with
    | (Ok a, w') => k a w'
    | (Raise e, w') => (Raise e, w')
    | (Exit c, w') => (Exit c, w')
    end.

Definition raise {A} (e : exn) : M A := fun w => (Raise e, w).

(** [exit(code)]: [SystemExit] is not an [Exception]. *)
Definition exit {A} (code : Z) : M A := fun w => (Exit code, w).

(** [try: body / except Exception as e: handler e] *)
Definition try_except {A} (body : M A) (handler : exn -> M A) : M A :=
  fun w =>
    match body w with
    | (Raise e, w') => handler e w'
    | r => r
    end.

Declare Scope py_scope.
Delimit Scope py_scope with py.
Notation "'let!' x ':=' m 'in' k" := (bind m (fun x => k))
  (at level 10, x binder, m at level 200, k at level 200) : py_scope.
Notation "'do!' m 'in' k" := (bind m (fun _ => k))
  (at level 10, m at level 200, k at level 200) : py_scope.
Local Open Scope py_scope.

(** The world with one more line on the console. *)
Definition with_line (w : world) (l : line) : world :=
  {| files := files w; console := console w ++ [l] |}.

(** [print(...)], [logger.info(...)] and the like. *)
Definition emit (l : line) : M unit := fun w => (Ok tt, with_line w l).

(** The file at [path] is created or replaced. *)
Definition put_file (path : string) (f : file) : M unit :=
  fun w => (Ok tt, {| files := <[path := f]> (files w); console := console w |}).

(** [for x in xs: body x] *)
Fixpoint for_each {A} (xs : list A) (body : A -> M unit) : M unit :=
  match xs with
  | [] => ret tt
  | x :: xs' => do! body x in for_each xs' body
  end.

(** [for x in xs: acc = body acc x], for loops that update local
    variables. *)
Fixpoint for_fold {A S} (xs : list A) (body : S -> A -> M S) (s : S) : M S :=
  match xs with
  | [] => ret s
  | x :: xs' => let! s' := body s x in for_fold xs' body s'
  end.

(** A computation that never ends the program with [exit]. *)
Definition never_exits {A} (m : M A) : Prop :=
  forall w c w', m w <> (Exit c, w').

(** The world after a computation. *)
Definition after {A} (m : M A) (w : world) : world := snd (m w).

(** ** The libraries and the operating system *)

Class Backend := {
  os_platform : platform;
  (** directories that exist *)
  os_isdir : string -> bool;
  (** [os.listdir]; [None] is an [OSError]. *)
  os_listdir : string -> option (list string);
  (** [os.makedirs(path, exist_ok=True)]; [Some e] is the exception. *)
  os_makedirs : string -> option exn;
  (** [datetime.now().strftime('%Y%m%d_%H%M%S')] *)
  datetime_now : string;
  (** [logging.FileHandler(path)], which opens the file: the exception
      that refuses it, if any. *)
  logging_FileHandler : string -> option exn;
  (** [gdal.Warp(output_path, src_ds, options)]: the exception it raises,
      if any, and the file it leaves at [output_path], if any. *)
  gdal_Warp : string -> raster -> WarpOptions -> option exn * option file;
  (** [rasterio.mask.mask(dataset, shapes, ...)] *)
  rio_mask : raster -> list shape -> MaskArgs -> exn + (ndarray * AffineGrid);
  (** [rasterio.open(path, "w", **meta)]: the exception that refuses the
      creation, if any. *)
  rio_create : string -> meta -> option exn;
  (** [dest.write(array)]: the exception that refuses the array, if any. *)
  rio_write : meta -> ndarray -> option exn;
  (** [geopandas.read_file(path).geometry] *)
  gpd_read_file : string -> exn + list shape
}.

(** ** Calls into the libraries *)

Section Calls.

Context {B : Backend}.
Local Open Scope string_scope.

(** [os.path.exists(path)] *)
Definition os_path_exists (path : string) : M bool :=
  fun w => (Ok (bool_decide (is_Some (files w !! path)) || os_isdir path), w).

(** [os.makedirs(path, exist_ok=True)].  The world holds files and no
    directories: of the call the model keeps whether it raises, not the
    directory it makes. *)
Definition makedirs (path : string) : M unit :=
  match os_makedirs path with
  | Some e => raise e
  | None => ret tt
  end.

(** [os.listdir(path)] *)
Definition listdir (path : string) : M (list string) :=
  match os_listdir path with
  | Some names => ret names
  | None => raise (OSError path)
  end.

(** [gdal.Open(path)]: the dataset, or [None] when the file is missing
    or no driver reads it. *)
Definition gdal_Open (path : string) : M (option raster) :=
  fun w =>
    (Ok match files w !! path with
        | Some (Raster r) => Some r
        | _ => None
        end, w).

(** The receiver of a method call [ds.attr()] on what [gdal.Open]
    returned: on [None] Python raises [AttributeError]. *)
Definition receiver (ds : option raster) (attr : string) : M raster :=
  match ds with
  | Some r => ret r
  | None =>
      raise (AttributeError
               ("'NoneType' object has no attribute '" +:+ attr +:+ "'"))
  end.

Definition GetProjection (r : raster) : string := crs (r_meta r).
Definition GetGeoTransform (r : raster) : AffineGrid := transform (r_meta r).
Definition RasterXSize (r : raster) : Z := width (r_meta r).
Definition RasterYSize (r : raster) : Z := height (r_meta r).

(** [srs = osr.SpatialReference(); srs.ImportFromWkt(text)] *)
Definition ImportFromWkt (text : string) : SpatialReference :=
  {| wkt := text |}.

(** [gdal.Warp(output_path, src_ds, options=warp_options)] *)
Definition Warp (output_path : string) (src_ds : raster)
    (warp_options : WarpOptions) : M unit :=
  fun w =>
    let '(raised, written) := gdal_Warp output_path src_ds warp_options in
    let w' :=
      match written with
      | Some f =>
          {| files := <[output_path := f]> (files w); console := console w |}
      | None => w
      end in
    (match raised with Some e => Raise e | None => Ok tt end, w').

(** [int(x)] of a [float]: an infinity and NaN have no integer. *)
Definition int_of_float (x : pyfloat) : M Z :=
  match x with
  | Finite q => ret (Num.int q)
  | Infinity _ =>
      raise (OverflowError "cannot convert float infinity to integer")
  | NaN => raise (ValueError "cannot convert float NaN to integer")
  end.

(** [a / b] on floats *)
Definition py_div (a b : Qc) : M Qc :=
  if decide (b = 0%Qc) then raise (ZeroDivisionError "float division by zero")
  else ret (a / b)%Qc.

End Calls.

(** ** ProjTransformer.py *)

Module ProjTransformer.
Section Script.

Context {B : Backend}.
Local Open Scope string_scope.

Definition get_srs_from_raster (raster_path : string) : M SpatialReference :=
  let! ds := gdal_Open raster_path in
  let! ds := receiver ds "GetProjection" in
  ret (ImportFromWkt (GetProjection ds)).

Definition reproject_warp_options (src_srs target_srs : SpatialReference)
    : WarpOptions :=
  {| srcSRS := Some src_srs;
     dstSRS := Some target_srs;
     resampleAlg := Some GRA_Bilinear;
     format := Some "GTiff";
     dstNodata := Some 0%Qc;
     creationOptions := Some ["COMPRESS=LZW"];
     xRes := None; yRes := None; outputBounds := None; outputType := None;
     multithread := None; warpMemoryLimit := None |}.

Definition reproject_raster (input_path output_path : string)
    (target_srs : SpatialReference) : M unit :=
  let! src_ds := gdal_Open input_path in
  let! src_ds := receiver src_ds "GetProjection" in
  let src_srs := ImportFromWkt (GetProjection src_ds) in
  let warp_options := reproject_warp_options src_srs target_srs in
  Warp output_path src_ds warp_options.

(** The file names of the batch: [f for f in os.listdir(input_dir) if
    f.endswith('.tif')]. *)
Definition input_files (names : list string) : list string :=
  List.filter (fun f => Str.endswith f ".tif") names.

(** The loop of [batch_reproject]. *)
Definition reproject_each (input_dir output_dir : string)
    (target_srs : SpatialReference) (filenames : list string) : M unit :=
  for_each filenames (fun filename =>
    let input_path := Path.join os_platform input_dir filename in
    let output_path := Path.join os_platform output_dir filename in
    reproject_raster input_path output_path target_srs).

Definition batch_reproject (input_dir output_dir reference_raster : string)
    : M unit :=
  let! target_srs := get_srs_from_raster reference_raster in
  do! makedirs output_dir in
  let! names := listdir input_dir in
  reproject_each input_dir output_dir target_srs (input_files names).

(** The [__main__] block, from the three paths as typed and stripped. *)
Definition main (input_dir output_dir reference_raster : string) : M unit :=
  do! emit (Printed "请输入以下路径信息（可直接复制粘贴带引号的路径）：") in
  let! found := os_path_exists input_dir in
  if negb found then
    do! emit (Printed ("错误: 输入目录不存在: " +:+ input_dir)) in
    exit 1
  else
  let! found := os_path_exists reference_raster in
  if negb found then
    do! emit (Printed ("错误: 参考栅格文件不存在: " +:+ reference_raster)) in
    exit 1
  else
  do! makedirs output_dir in
  do! batch_reproject input_dir output_dir reference_raster in
  emit (Printed "All files processed successfully!").

End Script.
End ProjTransformer.

(** ** 重采样.py *)

Module Resample.
Section Script.

Context {B : Backend}.
Local Open Scope string_scope.

(** What the user types at the five prompts, after [strip()].  The
    resolution is the value of [float(...)], which may be an infinity or
    NaN, and the method that of [int(...)]; each is [None] when the
    conversion raises [ValueError]. *)
Record answers := {
  typed_input_folder : string;
  typed_use_default : string;
  typed_output_folder : string;
  typed_target_res : option pyfloat;
  typed_method_choice : option Z
}.

(** [resample_methods] *)
Definition resample_methods (choice : Z) : option GRA :=
  match choice with
  | 1 => Some GRA_NearestNeighbour
  | 2 => Some GRA_Bilinear
  | 3 => Some GRA_Cubic
  | 4 => Some GRA_Average
  | 5 => Some GRA_Mode
  | _ => None
  end.

(** [x_size = int((size * abs(pixel)) / target_res)] and the same for
    [y_size]: two locals that nothing reads afterwards.  The quotient is
    a double and [int()] truncates it; that number is not computed here.
    Kept is what the line does to the run on a finite resolution: it
    raises on a division by zero.  (A quotient beyond the largest double,
    at resolutions of the order of 1e-300, has no counterpart in the
    rationals here.) *)
Definition target_size (size : Z) (pixel target_res : Qc) : M unit :=
  let! quotient := py_div (Num.of_int size * Num.abs pixel)%Qc target_res in
  ret tt.

Definition resample_warp_options (target_res : Qc) (resample_method : GRA)
    (src_ds : raster) : WarpOptions :=
  let src_proj := GetProjection src_ds in
  let src_geotrans := GetGeoTransform src_ds in
  {| format := Some "GTiff";
     xRes := Some target_res;
     yRes := Some target_res;
     resampleAlg := Some resample_method;
     outputBounds :=
       Some (origin_x src_geotrans,
             origin_y src_geotrans
             + pixel_height src_geotrans * Num.of_int (RasterYSize src_ds),
             origin_x src_geotrans
             + pixel_width src_geotrans * Num.of_int (RasterXSize src_ds),
             origin_y src_geotrans)%Qc;
     outputType := Some GDT_Float32;
     dstSRS := Some {| wkt := src_proj |};
     multithread := Some true;
     warpMemoryLimit := Some 1024;
     srcSRS := None; dstNodata := None; creationOptions := None |}.

(** The [try] block of [resample_tif]. *)
Definition resample_tif_try (target_res : Qc) (resample_method : GRA)
    (input_path output_path : string) : M unit :=
  let! src_ds := gdal_Open input_path in
  let! src_ds :=
    match src_ds with
    | None => raise (ValueError ("无法打开文件: " +:+ input_path))
    | Some ds => ret ds
    end in
  let src_geotrans := GetGeoTransform src_ds in
  let! x_size :=
    target_size (RasterXSize src_ds) (pixel_width src_geotrans) target_res in
  let! y_size :=
    target_size (RasterYSize src_ds) (pixel_height src_geotrans) target_res in
  let warp_options :=
    resample_warp_options target_res resample_method src_ds in
  Warp output_path src_ds warp_options.

(** Its [except Exception as e] clause. *)
Definition resample_tif_except (input_path : string) (e : exn) : M unit :=
  emit (ResampleError (Path.basename os_platform input_path) e).

Definition resample_tif (target_res : Qc) (resample_method : GRA)
    (input_path output_path : string) : M unit :=
  try_except
    (resample_tif_try target_res resample_method input_path output_path)
    (resample_tif_except input_path).

(** [f for f in os.listdir(input_folder) if f.endswith('.tif')] *)
Definition tif_files (names : list string) : list string :=
  List.filter (fun f => Str.endswith f ".tif") names.

Definition output_name (target_res : Qc) (filename : string) : string :=
  pretty (Num.int target_res) +:+ "m_" +:+ filename.

(** The loop at the end of the script. *)
Definition batch (target_res : Qc) (resample_method : GRA)
    (input_folder output_folder : string) (tifs : list string) : M unit :=
  for_each tifs (fun filename =>
    let input_path := Path.join os_platform input_folder filename in
    let output_path :=
      Path.join os_platform output_folder (output_name target_res filename) in
    resample_tif target_res resample_method input_path output_path).

(** The same loop on the resolution as [float()] returned it.  The
    [int(target_res)] of the output name is evaluated at each file,
    outside every [try] and before [resample_tif] is called: on an
    infinity or NaN it raises at the first file. *)
Definition loop (target_res : pyfloat) (resample_method : GRA)
    (input_folder output_folder : string) (tifs : list string) : M unit :=
  match target_res with
  | Finite q => batch q resample_method input_folder output_folder tifs
  | _ =>
      for_each tifs (fun filename =>
        let! prefix := int_of_float target_res in
        ret tt)
  end.

(** The menu of resampling methods. *)
Definition menu : list string :=
  ["可用的重采样方法:";
   "1. 最近邻法 (分类数据)";
   "2. 双线性插值 (连续数据)";
   "3. 三次卷积 (连续数据，高质量)";
   "4. 平均法 (适合降采样)";
   "5. 众数法 (分类数据)"].

(** The whole script. *)
Definition script (a : answers) : M unit :=
  do! emit (Printed "==== 栅格重采样工具 ====") in
  let input_folder := typed_input_folder a in
  let! found := os_path_exists input_folder in
  if negb found then
    do! emit (Printed ("错误: 目录不存在: " +:+ input_folder)) in
    exit 1
  else
  let output_folder :=
    if negb (String.eqb (Str.lower (typed_use_default a)) "y")
    then typed_output_folder a
    else Path.join os_platform input_folder "resampled" in
  do! makedirs output_folder in
  match typed_target_res a with
  | None =>
      do! emit (Printed "错误: 请输入有效的数值") in
      exit 1
  | Some target_res =>
      do! for_each menu (fun text => emit (Printed text)) in
      match
        match typed_method_choice a with
        | Some choice =>
            if ((choice <? 1) || (5 <? choice))%Z then None
            else resample_methods choice
        | None => None
        end
      with
      | None =>
          do! emit (Printed "错误: 请输入1-5之间的数字") in
          exit 1
      | Some resample_method =>
          let! names := listdir input_folder in
          let tifs := tif_files names in
          do! emit (ResampleFound (Z.of_nat (List.length tifs))) in
          do! loop target_res resample_method input_folder output_folder
                tifs in
          emit (ResampleDone output_folder)
      end
  end.

End Script.
End Resample.

(** ** 批量裁剪.py *)

Module Clip.
Section Script.

Context {B : Backend}.
Local Open Scope string_scope.

(** [rasterio.open(path)] for reading *)
Definition rasterio_open (path : string) : M raster :=
  fun w =>
    match files w !! path with
    | Some (Raster r) => (Ok r, w)
    | _ => (Raise (LibraryError ("RasterioIOError: " +:+ path)), w)
    end.

(** The pixels of a dataset that was created and not yet written. *)
Definition unwritten (m : meta) : ndarray :=
  {| shape0 := count m; shape1 := height m; shape2 := width m;
     values := [] |}.

(** [with rasterio.open(path, "w", **out_meta) as dest:
       dest.write(out_image)]:
    the file exists, with the metadata given, from the moment it is
    created; writing fills it. *)
Definition rasterio_write (path : string) (out_meta : meta)
    (out_image : ndarray) : M unit :=
  match rio_create path out_meta with
  | Some e => raise e
  | None =>
      do! put_file path
            (Raster {| r_meta := out_meta; r_pixels := unwritten out_meta |}) in
      match rio_write out_meta out_image with
      | Some e => raise e
      | None =>
          put_file path
            (Raster {| r_meta := out_meta; r_pixels := out_image |})
      end
  end.

(** [rasterio.mask.mask(src, shapes, ...)] *)
Definition mask (src : raster) (shapes : list shape) (args : MaskArgs)
    : M (ndarray * AffineGrid) :=
  match rio_mask src shapes args with
  | inl e => raise e
  | inr r => ret r
  end.

(** The [log_file] of [setup_logging]. *)
Definition log_file : string :=
  Path.join os_platform "logs" ("clip_raster_" +:+ datetime_now +:+ ".log").

(** [setup_logging()]: the directory of the logs, then the two handlers.
    Opening the log file can fail; what the handlers receive afterwards,
    in the file and on [stdout], is the console of the world. *)
Definition setup_logging : M unit :=
  do! makedirs "logs" in
  match logging_FileHandler log_file with
  | Some e => raise e
  | None => ret tt
  end.

Definition validate_paths (shapefile_path raster_dir output_dir : string)
    : M unit :=
  let! found := os_path_exists shapefile_path in
  if negb found then
    raise (FileNotFoundError ("Shapefile not found: " +:+ shapefile_path))
  else
  let! found := os_path_exists raster_dir in
  if negb found then
    raise (FileNotFoundError ("Raster directory not found: " +:+ raster_dir))
  else
  if negb (Str.endswith (Str.lower shapefile_path) ".shp") then
    raise (ValueError "Input shapefile must have .shp extension")
  else makedirs output_dir.

(** [if reference_raster:] on a value that is [None] or a string *)
Definition truthy (reference_raster : option string) : bool :=
  match reference_raster with
  | Some p => negb (String.eqb p "")
  | None => false
  end.

(** The keyword arguments of [mask] in the two branches. *)
Definition snap_args (src ref : raster) : MaskArgs :=
  {| crop := false; mask_transform := Some (transform (r_meta ref));
     all_touched := true; mask_nodata := nodata (r_meta src) |}.

Definition tight_args (src : raster) : MaskArgs :=
  {| crop := true; mask_transform := None;
     all_touched := false; mask_nodata := nodata (r_meta src) |}.

(** [out_meta = src.meta.copy(); out_meta.update({...})] in the branch
    with a reference raster. *)
Definition snap_meta (src ref : raster) : meta :=
  let ref_transform := transform (r_meta ref) in
  let ref_height := height (r_meta ref) in
  let ref_width := width (r_meta ref) in
  let ref_crs := crs (r_meta ref) in
  {| driver := "GTiff";
     height := ref_height;
     width := ref_width;
     transform := ref_transform;
     crs := ref_crs;
     nodata := nodata (r_meta src);
     dtype := dtype (r_meta src);
     count := count (r_meta src) |}.

(** The same in the branch without one. *)
Definition tight_meta (src : raster) (out_image : ndarray)
    (out_transform : AffineGrid) : meta :=
  {| driver := "GTiff";
     height := shape1 out_image;
     width := shape2 out_image;
     transform := out_transform;
     nodata := nodata (r_meta src);
     crs := crs (r_meta src);
     dtype := dtype (r_meta src);
     count := count (r_meta src) |}.

(** The branch taken with a reference raster: image and metadata of
    the output. *)
Definition snap_to_reference (src : raster) (shapes : list shape)
    (reference_raster : string) : M (ndarray * meta) :=
  let! ref := rasterio_open reference_raster in
  let! '(out_image, out_transform) :=
    mask src shapes (snap_args src ref) in
  ret (out_image, snap_meta src ref).

(** The branch taken without one. *)
Definition tight_crop (src : raster) (shapes : list shape)
    : M (ndarray * meta) :=
  let! '(out_image, out_transform) := mask src shapes (tight_args src) in
  ret (out_image, tight_meta src out_image out_transform).

(** The [try] block of [clip_raster_with_shapefile]. *)
Definition clip_try (input_raster output_raster : string)
    (shapes : list shape) (reference_raster : option string) : M bool :=
  let! src := rasterio_open input_raster in
  let! '(out_image, out_meta) :=
    if truthy reference_raster
    then snap_to_reference src shapes (default "" reference_raster)
    else tight_crop src shapes in
  do! makedirs (Path.dirname os_platform output_raster) in
  do! rasterio_write output_raster out_meta out_image in
  ret true.

(** Its [except Exception as e] clause. *)
Definition clip_except (input_raster : string) (e : exn) : M bool :=
  do! emit (ClipError input_raster e) in
  ret false.

Definition clip_raster_with_shapefile (input_raster output_raster : string)
    (shapes : list shape) (reference_raster : option string) : M bool :=
  try_except
    (clip_try input_raster output_raster shapes reference_raster)
    (clip_except input_raster).

(** The paths that [main] works on. *)
Record paths := {
  shapefile_path : string;
  raster_dir : string;
  output_dir : string;
  reference_raster_path : string
}.

(** The paths written in [main]. *)
Definition configured : paths :=
  {| shapefile_path := "D:\A曾都区三普\环境因子处理\曾都区缓冲区cgcsgk20.shp";
     raster_dir := "D:\A曾都区三普\环境因子处理\植被指数\NDVI\季度NDVI投影";
     output_dir := "D:\A曾都区三普\环境因子处理\植被指数\NDVI\季度NDVI裁剪";
     reference_raster_path := "D:\A曾都区三普\环境因子处理\曾都区DEM30m.tif" |}.

(** [glob.glob(os.path.join(raster_dir, "*.tif"))] *)
Definition glob_tif (raster_dir : string) : list string :=
  Path.glob os_platform (os_listdir raster_dir) raster_dir "*.tif".

(** One turn of the loop of [main]: the counters [(successful, failed)]
    before and after.  [reference] is what the loop passes as
    [reference_raster] ([main] passes the reference path).  The progress
    bar that the [finally] clause advances is not modelled. *)
Definition process_file (output_dir : string) (shapes : list shape)
    (reference : option string) (counters : Z * Z) (tif_file : string)
    : M (Z * Z) :=
  let '(successful, failed) := counters in
  let filename := Path.basename os_platform tif_file in
  try_except
    (let output_file := Path.join os_platform output_dir filename in
     let! done :=
       clip_raster_with_shapefile tif_file output_file shapes reference in
     if done : bool then ret (successful + 1, failed)
     else ret (successful, failed + 1))
    (fun e =>
       do! emit (ClipUnexpected filename e) in
       ret (successful, failed + 1)).

(** The loop of [main]. *)
Definition process_files (output_dir : string) (shapes : list shape)
    (reference : option string) (tifs : list string) : M (Z * Z) :=
  for_fold tifs (process_file output_dir shapes reference) (0, 0).

Definition main_on (p : paths) : M unit :=
  do! setup_logging in
  do! emit (Info "Starting raster clipping process...") in
  try_except
    (do! validate_paths (shapefile_path p) (raster_dir p) (output_dir p) in
     let! found := os_path_exists (reference_raster_path p) in
     if negb found then
       raise (FileNotFoundError ("Reference raster not found: "
                                 +:+ reference_raster_path p))
     else
     do! emit (Info "Reading shapefile...") in
     let! shapes :=
       match gpd_read_file (shapefile_path p) with
       | inl e => raise e
       | inr shapes => ret shapes
       end in
     let tifs := glob_tif (raster_dir p) in
     let total_files := Z.of_nat (List.length tifs) in
     if (total_files =? 0)%Z then
       emit (Warning "No TIF files found in the specified directory!")
     else
     do! emit (Info ("Using raster as reference: "
                     +:+ Path.basename os_platform (reference_raster_path p))) in
     do! emit (Info ("Found " +:+ pretty total_files
                     +:+ " TIF files to process")) in
     let! '(successful, failed) :=
       process_files (output_dir p) shapes
         (Some (reference_raster_path p)) tifs in
     emit (ClipSummary total_files successful failed
             (Path.basename os_platform (reference_raster_path p))))
    (fun e =>
       do! emit (ClipCritical e) in
       raise e).

Definition main : M unit := main_on configured.

(** The rate that the summary of [main] shows:
    [(successful / total_files) * 100], a true division of two [int]s. *)
Definition success_rate (successful total_files : Z) : M Qc :=
  if decide (total_files = 0) then
    raise (ZeroDivisionError "division by zero")
  else ret (Num.of_int successful / Num.of_int total_files * Qc_of_Z 100)%Qc.

End Script.
End Clip.

(** ** The affine grid of the specification *)

Module Grid.

Local Open Scope Qc_scope.

(** Modelled from the spec: the repository has no function of its own
    for the pixel-to-world mapping (the libraries apply it); this is
    [pixelToWorld(col, row) -> (x, y)] over the six coefficients. *)
Definition pixelToWorld (g : AffineGrid) (col row : Qc) : Qc * Qc :=
  (origin_x g + col * pixel_width g + row * row_rotation g,
   origin_y g + col * column_rotation g + row * pixel_height g).

(** Modelled from the spec: [worldToPixel(x, y) -> (col, row)], the
    inverse of the forward transform of an axis-aligned grid; an error
    ([None]) if pixel-width or pixel-height is zero. *)
Definition worldToPixel (g : AffineGrid) (x y : Qc) : option (Qc * Qc) :=
  if decide (pixel_width g = 0) then None
  else if decide (pixel_height g = 0) then None
  else Some ((x - origin_x g) / pixel_width g,
             (y - origin_y g) / pixel_height g).

(** Modelled from the spec: the invariants of an AffineGrid:
    pixel-width > 0, pixel-height not 0, rotation terms 0. *)
Definition valid (g : AffineGrid) : Prop :=
  0 < pixel_width g /\ pixel_height g <> 0
  /\ row_rotation g = 0 /\ column_rotation g = 0.

(** Modelled from the spec: [computeBounds(width, height) -> (xmin,
    ymin, xmax, ymax)]: the origin, and the origin plus the raster
    dimensions times the pixel size. *)
Definition computeBounds (g : AffineGrid) (w h : Z)
    : Qc * Qc * Qc * Qc :=
  let x1 := origin_x g + Num.of_int w * pixel_width g in
  let y1 := origin_y g + Num.of_int h * pixel_height g in
  (Num.min (origin_x g) x1, Num.min (origin_y g) y1,
   Num.max (origin_x g) x1, Num.max (origin_y g) y1).


(** The envelope of a set of polygons, [None] when it has no vertex. *)
Definition envelope (shapes : list shape) : option (Qc * Qc * Qc * Qc) :=
  match List.concat shapes with
  | [] => None
  | (x, y) :: vertices =>
      Some (fold_left
              (fun '(xmin, ymin, xmax, ymax) '(vx, vy) =>
                 (Num.min xmin vx, Num.min ymin vy,
                  Num.max xmax vx, Num.max ymax vy))
              vertices (x, y, x, y))
  end.

(** Two boxes [(xmin, ymin, xmax, ymax)] with no point in common. *)
Definition disjoint (b1 b2 : Qc * Qc * Qc * Qc) : bool :=
  let '(l1, b1, r1, t1) := b1 in
  let '(l2, b2, r2, t2) := b2 in
  bool_decide (r2 < l1) || bool_decide (r1 < l2)
  || bool_decide (t2 < b1) || bool_decide (t1 < b2).

(** The envelope of the geometries lies outside the raster's bounds. *)
Definition outside (shapes : list shape) (r : raster) : Prop :=
  match envelope shapes with
  | Some box =>
      disjoint box
        (computeBounds (transform (r_meta r)) (width (r_meta r))
           (height (r_meta r))) = true
  | None => True
  end.

(** Every polygon of the set, taken alone, lies outside the raster's
    bounds: no polygon meets the raster. *)
Definition apart (shapes : list shape) (r : raster) : bool :=
  forallb
    (fun polygon =>
       match envelope [polygon] with
       | Some box =>
           disjoint box
             (computeBounds (transform (r_meta r)) (width (r_meta r))
                (height (r_meta r)))
       | None => true
       end)
    shapes.

End Grid.

(** The signature of [rasterio.mask.mask] has no parameter [transform]:
    Python refuses a call that passes one, with this exception. *)
Definition unexpected_transform : exn :=
  TypeError "mask() got an unexpected keyword argument 'transform'".

Definition mask_rejects_transform (B : Backend) : Prop :=
  forall (src : raster) (shapes : list shape) (args : MaskArgs),
    is_Some (mask_transform args) ->
    rio_mask src shapes args = inl unexpected_transform.

(** What the clip script relies on from [rasterio.mask.mask]: with
    [crop=True] it raises when the envelope of the shapes lies outside
    the raster's bounds. *)
Definition mask_refuses_outside (B : Backend) : Prop :=
  forall (src : raster) (shapes : list shape) (args : MaskArgs),
    crop args = true -> Grid.outside shapes src ->
    exists e, rio_mask src shapes args = inl e.

(** ** What a computation leaves alone *)

(** A computation that changes no file outside the paths in [P]. *)
Definition writes_within {A} (P : string -> Prop) (m : M A) : Prop :=
  forall w path, ~ P path -> files (after m w) !! path = files w !! path.

(** A computation that prints and logs nothing. *)
Definition quiet {A} (m : M A) : Prop :=
  forall w, console (after m w) = console w.

(** ** A small file system and a small backend, for running the scripts *)

Module Demo.

Local Open Scope string_scope.

Definition grid (x0 y0 size : Z) : AffineGrid :=
  {| origin_x := Qc_of_Z x0; pixel_width := Qc_of_Z size;
     row_rotation := 0%Qc;
     origin_y := Qc_of_Z y0; column_rotation := 0%Qc;
     pixel_height := (- Qc_of_Z size)%Qc |}.

Definition image (bands rows cols : Z) (vs : list Qc) : ndarray :=
  {| shape0 := bands; shape1 := rows; shape2 := cols; values := vs |}.

Definition dataset (w h : Z) (g : AffineGrid) (srs : string)
    (nd : option Qc) (vs : list Qc) : raster :=
  {| r_meta := {| driver := "GTiff"; dtype := "float32"; nodata := nd;
                  width := w; height := h; count := 1; crs := srs;
                  transform := g |};
     r_pixels := image 1 h w vs |}.

(** A 100 x 80 reference grid of 30 m pixels. *)
Definition reference : raster :=
  dataset 100 80 (grid 0 2400 30) "EPSG:4547" None [].

(** A source on the same extent, in another reference system. *)
Definition source : raster :=
  dataset 100 80 (grid 0 2400 30) "EPSG:32649" (Some (Qc_of_Z (-9999)))
    [1%Qc; 2%Qc].

(** A 10 x 10 source of 30 m pixels. *)
Definition small : raster :=
  dataset 10 10 (grid 0 300 30) "EPSG:4547" None [].

Definition square (x0 y0 x1 y1 : Z) : shape :=
  [(Qc_of_Z x0, Qc_of_Z y0); (Qc_of_Z x1, Qc_of_Z y0);
   (Qc_of_Z x1, Qc_of_Z y1); (Qc_of_Z x0, Qc_of_Z y1)].

(** A polygon in one corner of the reference grid, and one far away. *)
Definition corner : list shape := [square 0 2340 60 2400].
Definition far_away : list shape := [square 9000 9000 9100 9100].

(** Two polygons, one to the left and one to the right of [small]: none
    meets it, and their common envelope runs across it. *)
Definition two_sides : list shape :=
  [square (-200) 100 (-100) 200; square 400 100 500 200].

Definition boxes_apart (shapes : list shape) (r : raster) : bool :=
  match Grid.envelope shapes with
  | Some box =>
      Grid.disjoint box
        (Grid.computeBounds (transform (r_meta r)) (width (r_meta r))
           (height (r_meta r)))
  | None => true
  end.

Definition backend (pf : platform) (names : list string) : Backend :=
  {| os_platform := pf;
     os_isdir := fun _ => true;
     os_listdir := fun d => if String.eqb d "in" then Some names else None;
     os_makedirs := fun _ => None;
     datetime_now := "20250301_093000";
     logging_FileHandler := fun _ => None;
     gdal_Warp := fun _ src _ => (None, Some (Raster src));
     rio_mask := fun src shapes args =>
       match mask_transform args with
       | Some _ => inl unexpected_transform
       | None =>
           if crop args && boxes_apart shapes src
           then inl (ValueError "Input shapes do not overlap raster.")
           else inr (r_pixels src, transform (r_meta src))
       end;
     rio_create := fun _ _ => None;
     rio_write := fun m a =>
       if bool_decide (shape0 a = count m /\ shape1 a = height m
                       /\ shape2 a = width m)
       then None
       else Some (ValueError "array shape does not match the dataset");
     gpd_read_file := fun _ => inr corner |}.

Definition posix : Backend := backend Posix ["a.tif"; "b.tif"].
Definition empty_dir : Backend := backend Posix ["notes.txt"].

(** The same, with a warp that leaves a file behind and raises. *)
Definition failing_warp : Backend :=
  {| os_platform := Posix;
     os_isdir := @os_isdir posix;
     os_listdir := @os_listdir posix;
     os_makedirs := @os_makedirs posix;
     datetime_now := @datetime_now posix;
     logging_FileHandler := @logging_FileHandler posix;
     gdal_Warp := fun _ _ _ =>
       (Some (LibraryError "warp failed"), Some Unreadable);
     rio_mask := @rio_mask posix;
     rio_create := @rio_create posix;
     rio_write := @rio_write posix;
     gpd_read_file := @gpd_read_file posix |}.

(** The same, with no directory at all. *)
Definition no_dirs : Backend :=
  {| os_platform := Posix;
     os_isdir := fun _ => false;
     os_listdir := fun _ => None;
     os_makedirs := @os_makedirs posix;
     datetime_now := @datetime_now posix;
     logging_FileHandler := @logging_FileHandler posix;
     gdal_Warp := @gdal_Warp posix;
     rio_mask := @rio_mask posix;
     rio_create := @rio_create posix;
     rio_write := @rio_write posix;
     gpd_read_file := @gpd_read_file posix |}.
Definition windows : Backend := backend Nt ["A.TIF"].

(** The same as [posix], where the log file cannot be opened. *)
Definition no_log : Backend :=
  {| os_platform := Posix;
     os_isdir := @os_isdir posix;
     os_listdir := @os_listdir posix;
     os_makedirs := @os_makedirs posix;
     datetime_now := @datetime_now posix;
     logging_FileHandler := fun path =>
       Some (OSError ("[Errno 13] Permission denied: '" +:+ path +:+ "'"));
     gdal_Warp := @gdal_Warp posix;
     rio_mask := @rio_mask posix;
     rio_create := @rio_create posix;
     rio_write := @rio_write posix;
     gpd_read_file := @gpd_read_file posix |}.

Definition world0 : world :=
  {| files := {[ "in/a.tif" := Raster source; "ref.tif" := Raster reference ]};
     console := [] |}.

(** The first file of the directory is not a raster. *)
Definition world1 : world :=
  {| files := {[ "in/a.tif" := Unreadable; "in/b.tif" := Raster source;
                 "ref.tif" := Raster reference ]};
     console := [] |}.

Definition world2 : world :=
  {| files := {[ "in/a.tif" := Raster small ]}; console := [] |}.

(** Both files of the directory are rasters. *)
Definition world3 : world :=
  {| files := {[ "in/a.tif" := Raster source; "in/b.tif" := Raster small;
                 "ref.tif" := Raster reference ]};
     console := [] |}.

End Demo.

(** * Properties *)

(** ** Strings and file-name patterns *)

Section StringFacts.

Local Open Scope string_scope.

Lemma app_nil (s : string) : "" +:+ s = s.
Proof. reflexivity. Qed.

Lemma app_cons (c : ascii) (p s : string) :
  String c p +:+ s = String c (p +:+ s).
Proof. reflexivity. Qed.

Lemma app_assoc (p q r : string) : (p +:+ q) +:+ r = p +:+ (q +:+ r).
Proof.
  induction p as [|c p IH]; [reflexivity|].
  rewrite !app_cons. now rewrite IH.
Qed.

Lemma length_app (p s : string) :
  String.length (p +:+ s) = (String.length p + String.length s)%nat.
Proof.
  induction p as [|c p IH]; [reflexivity|].
  rewrite app_cons. simpl. now rewrite IH.
Qed.

Lemma drop_app (p s : string) : Str.drop (String.length p) (p +:+ s) = s.
Proof.
  induction p as [|c p IH]; [now destruct s|].
  rewrite app_cons. exact IH.
Qed.

Lemma drop_split (n : nat) (s : string) : exists p, s = p +:+ Str.drop n s.
Proof.
  revert s; induction n as [|n IH]; intros s.
  - exists ""; now destruct s.
  - destruct s as [|c s]; simpl.
    + now exists "".
    + destruct (IH s) as [p Hp]. exists (String c p).
      rewrite app_cons. now rewrite <- Hp.
Qed.

Lemma endswith_spec (s suf : string) :
  Str.endswith s suf = true <-> exists p, s = p +:+ suf.
Proof.
  unfold Str.endswith. rewrite andb_true_iff, Nat.leb_le, String.eqb_eq.
  split.
  - intros [_ H]. destruct (drop_split (String.length s - String.length suf) s)
      as [p Hp]. exists p. now rewrite H in Hp.
  - intros [p ->]. rewrite length_app. split; [lia|].
    replace (String.length p + String.length suf - String.length suf)%nat
      with (String.length p) by lia.
    apply drop_app.
Qed.

Lemma app_inj_length (p q s t : string) :
  String.length s = String.length t -> p +:+ s = q +:+ t -> s = t.
Proof.
  revert q; induction p as [|c p IH]; intros q Hlen H.
  - destruct q as [|d q]; [exact H|].
    apply (f_equal String.length) in H.
    rewrite !length_app in H. simpl in H. lia.
  - destruct q as [|d q].
    + apply (f_equal String.length) in H.
      rewrite !length_app in H. simpl in H. lia.
    + rewrite !app_cons in H. injection H as _ H. now apply (IH q).
Qed.

(** Two different suffixes of the same length are never both the end
    of one name. *)
Lemma endswith_other (stem suf suf' : string) :
  String.length suf = String.length suf' -> suf <> suf' ->
  Str.endswith (stem +:+ suf) suf' = false.
Proof.
  intros Hlen Hne. apply not_true_is_false. rewrite endswith_spec.
  intros [p Hp]. apply Hne. now apply (app_inj_length stem p).
Qed.

Lemma fnmatch_literal_tif (s : string) :
  Str.fnmatch ".tif" s = String.eqb s ".tif".
Proof.
  destruct s as [|c0 [|c1 [|c2 [|c3 [|c4 s]]]]]; simpl; try reflexivity;
    rewrite ?(Ascii.eqb_sym "."), ?(Ascii.eqb_sym "t"),
      ?(Ascii.eqb_sym "i"), ?(Ascii.eqb_sym "f");
    repeat (match goal with
            | |- context [Ascii.eqb ?a ?b] => destruct (Ascii.eqb a b)
            end; simpl; try reflexivity).
Qed.

(** The pattern [*.tif] matches the names that end in [.tif]. *)
Lemma fnmatch_star_tif (s : string) :
  Str.fnmatch "*.tif" s = Str.endswith s ".tif".
Proof.
  apply eq_true_iff_eq. rewrite endswith_spec.
  change (Str.fnmatch "*.tif") with
    (fix star (s : string) : bool :=
       Str.fnmatch ".tif" s
       || match s with
          | EmptyString => false
          | String _ s' => star s'
          end).
  induction s as [|c s IH].
  - rewrite fnmatch_literal_tif. simpl. split; [discriminate|].
    intros [p Hp]. destruct p; discriminate.
  - rewrite orb_true_iff, fnmatch_literal_tif, String.eqb_eq, IH.
    split.
    + intros [-> | [p ->]]; [now exists "" | now exists (String c p)].
    + intros [[|d p] Hp].
      * now left.
      * rewrite app_cons in Hp. injection Hp as _ ->. right. now exists p.
Qed.

End StringFacts.

(** ** File enumeration *)

Section Enumeration.

Context {B : Backend}.
Local Open Scope string_scope.

Lemma in_suffix_filter (names : list string) (f : string) :
  In f (List.filter (fun f => Str.endswith f ".tif") names)
  <-> In f names /\ exists stem, f = stem +:+ ".tif".
Proof. now rewrite List.filter_In, endswith_spec. Qed.

Lemma normcase_pattern (pf : platform) : Path.normcase pf "*.tif" = "*.tif".
Proof. now destruct pf. Qed.

Lemma in_glob_tif (dir p : string) :
  In p (Clip.glob_tif dir)
  <-> exists f, p = Path.join os_platform dir f
                /\ In f (default [] (os_listdir dir))
                /\ Path.ishidden f = false
                /\ exists stem, Path.normcase os_platform f = stem +:+ ".tif".
Proof.
  unfold Clip.glob_tif, Path.glob, Path.fnmatch_filter.
  change (Path.ishidden "*.tif") with false. cbv iota.
  rewrite List.in_map_iff. setoid_rewrite List.filter_In.
  setoid_rewrite List.filter_In.
  rewrite normcase_pattern. setoid_rewrite fnmatch_star_tif.
  setoid_rewrite endswith_spec. setoid_rewrite negb_true_iff.
  split.
  - intros (f & <- & (Hin & Hh) & Hm). now exists f.
  - intros (f & -> & Hin & Hh & Hm). now exists f.
Qed.

End Enumeration.

(** ** Computations *)

Create HintDb noexit.

Section MonadFacts.

Context {B : Backend}.

Lemma never_exits_ret {A} (a : A) : never_exits (ret a).
Proof. intros w c w'. discriminate. Qed.

Lemma never_exits_raise {A} (e : exn) : never_exits (@raise A e).
Proof. intros w c w'. discriminate. Qed.

Lemma never_exits_bind {A C} (m : M A) (k : A -> M C) :
  never_exits m -> (forall a, never_exits (k a)) -> never_exits (bind m k).
Proof.
  intros Hm Hk w c w'. unfold bind.
  destruct (m w) as [[a|e|c'] w1] eqn:E.
  - apply Hk.
  - discriminate.
  - now apply Hm in E.
Qed.

Lemma never_exits_try_except {A} (body : M A) (handler : exn -> M A) :
  never_exits body -> (forall e, never_exits (handler e)) ->
  never_exits (try_except body handler).
Proof.
  intros Hb Hh w c w'. unfold try_except.
  destruct (body w) as [[a|e|c'] w1] eqn:E.
  - discriminate.
  - apply Hh.
  - now apply Hb in E.
Qed.

Lemma never_exits_emit (l : line) : never_exits (emit l).
Proof. intros w c w'. discriminate. Qed.

Lemma never_exits_put_file (p : string) (f : file) :
  never_exits (put_file p f).
Proof. intros w c w'. discriminate. Qed.

Lemma never_exits_makedirs (p : string) : never_exits (makedirs p).
Proof.
  unfold makedirs. destruct (os_makedirs p);
    [apply never_exits_raise | apply never_exits_ret].
Qed.

Lemma never_exits_gdal_Open (p : string) : never_exits (gdal_Open p).
Proof. intros w c w'. discriminate. Qed.

Lemma never_exits_Warp (p : string) (r : raster) (o : WarpOptions) :
  never_exits (Warp p r o).
Proof.
  intros w c w'. unfold Warp. destruct (gdal_Warp p r o) as [[e|] f];
    discriminate.
Qed.

Lemma never_exits_py_div (a b : Qc) : never_exits (py_div a b).
Proof.
  unfold py_div. destruct (decide (b = 0%Qc));
    [apply never_exits_raise | apply never_exits_ret].
Qed.

Lemma never_exits_rasterio_open (p : string) :
  never_exits (Clip.rasterio_open p).
Proof.
  intros w c w'. unfold Clip.rasterio_open.
  destruct (files w !! p) as [[r|]|]; discriminate.
Qed.

Lemma never_exits_mask (src : raster) (shapes : list shape) (a : MaskArgs) :
  never_exits (Clip.mask src shapes a).
Proof.
  unfold Clip.mask. destruct (rio_mask src shapes a);
    [apply never_exits_raise | apply never_exits_ret].
Qed.

(** A handled block that cannot [exit] and whose handler returns
    always returns. *)
Lemma try_except_returns {A} (body : M A) (handler : exn -> M A) :
  never_exits body ->
  (forall e w, exists a w', handler e w = (Ok a, w')) ->
  forall w, exists a w', try_except body handler w = (Ok a, w').
Proof.
  intros Hb Hh w. unfold try_except.
  destruct (body w) as [[a|e|c] w1] eqn:E.
  - now exists a, w1.
  - apply Hh.
  - now apply Hb in E.
Qed.

(** A loop whose body always returns runs the body on every element. *)
Lemma for_each_returns {A} (body : A -> M unit) (xs : list A) (w : world) :
  (forall x w, exists w', body x w = (Ok tt, w')) ->
  for_each xs body w = (Ok tt, fold_left (fun w x => after (body x) w) xs w).
Proof.
  intros Hbody. revert w. induction xs as [|x xs IH]; intros w.
  - reflexivity.
  - simpl. unfold bind, after at 2.
    destruct (Hbody x w) as [w1 E]. rewrite E. apply IH.
Qed.

(** A loop stops at the first element on which the body raises. *)
Lemma for_each_raises {A} (body : A -> M unit) (x : A) (xs : list A)
    (w w1 : world) (e : exn) :
  body x w = (Raise e, w1) -> for_each (x :: xs) body w = (Raise e, w1).
Proof. intros E. simpl. unfold bind. now rewrite E. Qed.

End MonadFacts.

#[export] Hint Resolve never_exits_ret never_exits_raise never_exits_emit
  never_exits_put_file never_exits_makedirs never_exits_gdal_Open
  never_exits_Warp never_exits_py_div never_exits_rasterio_open
  never_exits_mask : noexit.

Ltac never_exits_step :=
  match goal with
  | |- never_exits (bind _ _) => apply never_exits_bind; [|intros]
  | |- never_exits (try_except _ _) => apply never_exits_try_except; [|intros]
  | |- never_exits (match ?x with _ => _ end) => destruct x
  | |- never_exits _ => solve [auto with noexit]
  end.

Ltac never_exits := repeat never_exits_step.

(** ** The per-file functions and the loops *)

Section Loops.

Context {B : Backend}.
Local Open Scope string_scope.

Lemma resample_tif_try_never_exits (target_res : Qc) (method : GRA)
    (input_path output_path : string) :
  never_exits
    (Resample.resample_tif_try target_res method input_path output_path).
Proof.
  unfold Resample.resample_tif_try, Resample.target_size. never_exits.
Qed.

(** [resample_tif] returns, whatever happens inside. *)
Lemma resample_tif_returns (target_res : Qc) (method : GRA)
    (input_path output_path : string) (w : world) :
  exists w',
    Resample.resample_tif target_res method input_path output_path w
    = (Ok tt, w').
Proof.
  destruct (try_except_returns
              (Resample.resample_tif_try target_res method input_path
                 output_path)
              (Resample.resample_tif_except input_path)
              (resample_tif_try_never_exits _ _ _ _)) with (w := w)
    as ([] & w' & E).
  - intros e w0. now eexists tt, _.
  - now exists w'.
Qed.

Lemma resample_tif_caught (target_res : Qc) (method : GRA)
    (input_path output_path : string) (w w1 : world) (e : exn) :
  Resample.resample_tif_try target_res method input_path output_path w
  = (Raise e, w1) ->
  Resample.resample_tif target_res method input_path output_path w
  = (Ok tt,
     with_line w1
       (ResampleError (Path.basename os_platform input_path) e)).
Proof.
  intros E. unfold Resample.resample_tif, try_except. now rewrite E.
Qed.

Lemma rasterio_write_never_exits (p : string) (m : meta) (a : ndarray) :
  never_exits (Clip.rasterio_write p m a).
Proof. unfold Clip.rasterio_write. never_exits. Qed.

Lemma clip_try_never_exits (input_raster output_raster : string)
    (shapes : list shape) (reference : option string) :
  never_exits (Clip.clip_try input_raster output_raster shapes reference).
Proof.
  pose proof rasterio_write_never_exits.
  unfold Clip.clip_try, Clip.snap_to_reference, Clip.tight_crop.
  never_exits.
Qed.

(** [clip_raster_with_shapefile] returns [True] or [False], whatever
    happens inside. *)
Lemma clip_returns (input_raster output_raster : string)
    (shapes : list shape) (reference : option string) (w : world) :
  exists (done : bool) (w' : world),
    Clip.clip_raster_with_shapefile input_raster output_raster shapes
      reference w = (Ok done, w').
Proof.
  apply try_except_returns.
  - apply clip_try_never_exits.
  - intros e w0. now eexists false, _.
Qed.

Lemma clip_caught (input_raster output_raster : string)
    (shapes : list shape) (reference : option string) (w w1 : world)
    (e : exn) :
  Clip.clip_try input_raster output_raster shapes reference w
  = (Raise e, w1) ->
  Clip.clip_raster_with_shapefile input_raster output_raster shapes
    reference w
  = (Ok false, with_line w1 (ClipError input_raster e)).
Proof.
  intros E. unfold Clip.clip_raster_with_shapefile, try_except.
  now rewrite E.
Qed.

(** What one turn of the clip loop does to the counters. *)
Lemma process_file_counts (output_dir : string) (shapes : list shape)
    (reference : option string) (successful failed : Z) (tif_file : string)
    (w : world) :
  let clip :=
    Clip.clip_raster_with_shapefile tif_file
      (Path.join os_platform output_dir (Path.basename os_platform tif_file))
      shapes reference in
  exists done : bool,
    clip w = (Ok done, after clip w)
    /\ Clip.process_file output_dir shapes reference (successful, failed)
         tif_file w
       = (Ok (if done then (successful + 1, failed)
              else (successful, failed + 1)),
          after clip w).
Proof.
  intros clip.
  destruct (clip_returns tif_file
              (Path.join os_platform output_dir
                 (Path.basename os_platform tif_file))
              shapes reference w) as (done & w' & E).
  fold clip in E. exists done. unfold after. rewrite E. split; [reflexivity|].
  unfold Clip.process_file, try_except, bind. fold clip. rewrite E.
  now destruct done.
Qed.

Lemma process_files_from (output_dir : string) (shapes : list shape)
    (reference : option string) (tifs : list string) (s0 f0 : Z)
    (w : world) :
  exists successful failed : Z,
    for_fold tifs (Clip.process_file output_dir shapes reference) (s0, f0) w
    = (Ok (successful, failed),
       fold_left
         (fun w tif_file =>
            after (Clip.clip_raster_with_shapefile tif_file
                     (Path.join os_platform output_dir
                        (Path.basename os_platform tif_file))
                     shapes reference) w)
         tifs w)
    /\ s0 <= successful /\ f0 <= failed
    /\ successful + failed = s0 + f0 + Z.of_nat (List.length tifs).
Proof.
  revert s0 f0 w. induction tifs as [|t tifs IH]; intros s0 f0 w.
  - exists s0, f0. simpl. repeat split; lia.
  - destruct (process_file_counts output_dir shapes reference s0 f0 t w)
      as (done & _ & E).
    cbn [for_fold fold_left]. unfold bind at 1. rewrite E.
    destruct done.
    + destruct (IH (s0 + 1) f0
                  (after (Clip.clip_raster_with_shapefile t
                     (Path.join os_platform output_dir
                        (Path.basename os_platform t)) shapes reference) w))
        as (s & f & -> & ? & ? & ?).
      exists s, f. cbn [List.length]. repeat split; lia.
    + destruct (IH s0 (f0 + 1)
                  (after (Clip.clip_raster_with_shapefile t
                     (Path.join os_platform output_dir
                        (Path.basename os_platform t)) shapes reference) w))
        as (s & f & -> & ? & ? & ?).
      exists s, f. cbn [List.length]. repeat split; lia.
Qed.

End Loops.

(** ** Error isolation in the batches *)

Section Isolation.

Local Open Scope string_scope.

Lemma reproject_unreadable {B : Backend} (input_path output_path : string)
    (target_srs : SpatialReference) (w : world) :
  (forall r, files w !! input_path <> Some (Raster r)) ->
  ProjTransformer.reproject_raster input_path output_path target_srs w
  = (Raise (AttributeError
              "'NoneType' object has no attribute 'GetProjection'"), w).
Proof.
  intros H. unfold ProjTransformer.reproject_raster, bind, gdal_Open.
  destruct (files w !! input_path) as [[r|]|] eqn:E; try reflexivity.
  now destruct (H r).
Qed.

(** C2, as stated, fails for the reprojection batch: with an unreadable
    first file the batch ends with the exception that file raised, and
    the readable second file is never reprojected. *)
Lemma C2_reproject_batch_aborts :
  let run :=
    @ProjTransformer.batch_reproject Demo.posix "in" "out" "ref.tif"
      Demo.world1 in
  fst run
  = Raise (AttributeError "'NoneType' object has no attribute 'GetProjection'")
  /\ files Demo.world1 !! "in/b.tif" = Some (Raster Demo.source)
  /\ files (snd run) !! "out/b.tif" = None.
Proof. vm_compute. repeat split. Qed.

(** C2, as amended: in the resample and clip batches an error raised
    while a file is processed is caught by the per-file function,
    reported with that file's name (and, in the clip batch, counted as
    failed), and the loop goes on over every remaining file; the
    reprojection batch catches nothing, and the first file that raises
    ends it with the files after it unprocessed. *)
Theorem C2_per_file_error_isolation (B : Backend) :
  (forall target_res method input_path output_path w w1 e,
      Resample.resample_tif_try target_res method input_path output_path w
      = (Raise e, w1) ->
      Resample.resample_tif target_res method input_path output_path w
      = (Ok tt,
         with_line w1
           (ResampleError (Path.basename os_platform input_path) e)))
  /\ (forall target_res method input_folder output_folder tifs w,
         Resample.batch target_res method input_folder output_folder tifs w
         = (Ok tt,
            fold_left
              (fun w filename =>
                 after (Resample.resample_tif target_res method
                          (Path.join os_platform input_folder filename)
                          (Path.join os_platform output_folder
                             (Resample.output_name target_res filename))) w)
              tifs w))
  /\ (forall input_raster output_raster shapes reference w w1 e,
         Clip.clip_try input_raster output_raster shapes reference w
         = (Raise e, w1) ->
         Clip.clip_raster_with_shapefile input_raster output_raster shapes
           reference w
         = (Ok false, with_line w1 (ClipError input_raster e)))
  /\ (forall output_dir shapes reference successful failed tif_file w w1,
         Clip.clip_raster_with_shapefile tif_file
           (Path.join os_platform output_dir
              (Path.basename os_platform tif_file)) shapes reference w
         = (Ok false, w1) ->
         Clip.process_file output_dir shapes reference (successful, failed)
           tif_file w
         = (Ok (successful, failed + 1), w1))
  /\ (forall output_dir shapes reference tifs w,
         exists successful failed,
           Clip.process_files output_dir shapes reference tifs w
           = (Ok (successful, failed),
              fold_left
                (fun w tif_file =>
                   after (Clip.clip_raster_with_shapefile tif_file
                            (Path.join os_platform output_dir
                               (Path.basename os_platform tif_file))
                            shapes reference) w)
                tifs w)
           /\ 0 <= successful /\ 0 <= failed
           /\ successful + failed = Z.of_nat (List.length tifs))
  /\ (forall input_path output_path target_srs w,
         (forall r, files w !! input_path <> Some (Raster r)) ->
         ProjTransformer.reproject_raster input_path output_path target_srs w
         = (Raise (AttributeError
                     "'NoneType' object has no attribute 'GetProjection'"), w))
  /\ (forall input_dir output_dir target_srs filename rest w w1 e,
         ProjTransformer.reproject_raster
           (Path.join os_platform input_dir filename)
           (Path.join os_platform output_dir filename) target_srs w
         = (Raise e, w1) ->
         ProjTransformer.reproject_each input_dir output_dir target_srs
           (filename :: rest) w
         = (Raise e, w1)).
Proof.
  repeat apply conj.
  - intros. now apply resample_tif_caught.
  - intros. unfold Resample.batch. apply for_each_returns.
    intros x w0. apply resample_tif_returns.
  - intros. now apply clip_caught.
  - intros output_dir shapes reference successful failed tif_file w w1 E.
    destruct (process_file_counts output_dir shapes reference successful
                failed tif_file w) as (done & E1 & E2).
    cbv zeta in E1. rewrite E in E1 at 1. injection E1 as Hdone Hw.
    subst done. now rewrite <- Hw in E2.
  - intros. unfold Clip.process_files.
    destruct (process_files_from output_dir shapes reference tifs 0 0 w)
      as (s1 & f1 & E & ? & ? & ?).
    exists s1, f1. repeat split; [exact E | lia ..].
  - intros. now apply reproject_unreadable.
  - intros. unfold ProjTransformer.reproject_each.
    now apply for_each_raises.
Qed.

(** The theorem at work: on the small file system whose first file is
    unreadable, the resample loop goes over both files and the
    reprojection loop stops at the first. *)
Lemma C2_per_file_error_isolation_witness :
  @Resample.resample_tif Demo.posix (Qc_of_Z 30) GRA_Bilinear "in/a.tif"
    "out/30m_a.tif" Demo.world1
  = (Ok tt,
     with_line Demo.world1
       (ResampleError "a.tif" (ValueError "无法打开文件: in/a.tif")))
  /\ @ProjTransformer.reproject_each Demo.posix "in" "out"
       {| wkt := "EPSG:4547" |} ["a.tif"; "b.tif"] Demo.world1
     = (Raise (AttributeError
                 "'NoneType' object has no attribute 'GetProjection'"),
        Demo.world1).
Proof.
  destruct (C2_per_file_error_isolation Demo.posix)
    as (Hres & _ & _ & _ & _ & _ & Hproj).
  split.
  - apply (Hres (Qc_of_Z 30) GRA_Bilinear "in/a.tif" "out/30m_a.tif"
             Demo.world1 Demo.world1
             (ValueError "无法打开文件: in/a.tif")).
    vm_compute. reflexivity.
  - apply (Hproj "in" "out" {| wkt := "EPSG:4547" |} "a.tif" ["b.tif"]
             Demo.world1 Demo.world1).
    vm_compute. reflexivity.
Defined.

End Isolation.

(** ** Which files a batch works on *)

Section Extensions.

Local Open Scope string_scope.

(** C10, as stated, fails for the clip batch under Windows, where
    [glob] compares names after [os.path.normcase]: a file named
    [A.TIF], which does not end with the lowercase [.tif], is
    enumerated. *)
Lemma C10_windows_glob_takes_upper_case :
  Str.endswith "A.TIF" ".tif" = false
  /\ @os_listdir Demo.windows "in" = Some ["A.TIF"]
  /\ @Clip.glob_tif Demo.windows "in" = ["in\A.TIF"].
Proof. vm_compute. repeat split. Qed.

(** C10, as amended: the reprojection and resample batches work on
    exactly the directory entries whose name ends with the
    case-sensitive [.tif], so names in [.TIF] or [.tiff] are skipped;
    the clip batch works on the entries matched by the pattern [*.tif]:
    those not starting with a dot whose name, after [os.path.normcase]
    (the identity on POSIX, lower case on Windows), ends with [.tif];
    the clip counters add up to the number of enumerated files, so a
    skipped file is in none of them. *)
Theorem C10_enumerated_files (B : Backend) :
  (forall names f,
      In f (ProjTransformer.input_files names)
      <-> In f names /\ exists stem, f = stem +:+ ".tif")
  /\ (forall names f,
         In f (Resample.tif_files names)
         <-> In f names /\ exists stem, f = stem +:+ ".tif")
  /\ (forall names stem,
         ~ In (stem +:+ ".TIF") (ProjTransformer.input_files names)
         /\ ~ In (stem +:+ ".tiff") (ProjTransformer.input_files names)
         /\ ~ In (stem +:+ ".TIF") (Resample.tif_files names)
         /\ ~ In (stem +:+ ".tiff") (Resample.tif_files names))
  /\ (forall dir p,
         In p (Clip.glob_tif dir)
         <-> exists f, p = Path.join os_platform dir f
                       /\ In f (default [] (os_listdir dir))
                       /\ Path.ishidden f = false
                       /\ exists stem,
                            Path.normcase os_platform f = stem +:+ ".tif")
  /\ (forall f, Path.normcase Posix f = f)
  /\ (forall f,
         Path.normcase Nt f = Str.replace_char "/" "\" (Str.lower f))
  /\ (forall output_dir shapes reference dir w,
         exists successful failed w',
           Clip.process_files output_dir shapes reference
             (Clip.glob_tif dir) w = (Ok (successful, failed), w')
           /\ successful + failed
              = Z.of_nat (List.length (Clip.glob_tif dir))).
Proof.
  assert (Hskip : forall names stem suf,
             Str.endswith (stem +:+ suf) ".tif" = false ->
             ~ In (stem +:+ suf)
                 (List.filter (fun f => Str.endswith f ".tif") names)).
  { intros names stem suf H Hin. apply List.filter_In in Hin.
    destruct Hin as [_ Hin]. congruence. }
  assert (Htiff : forall stem, Str.endswith (stem +:+ ".tiff") ".tif" = false).
  { intros stem. change (stem +:+ ".tiff") with (stem +:+ ("." +:+ "tiff")).
    rewrite <- (app_assoc stem "." "tiff"). now apply endswith_other. }
  repeat apply conj.
  - intros. apply in_suffix_filter.
  - intros. apply in_suffix_filter.
  - intros names stem.
    repeat apply conj; apply Hskip; try apply Htiff;
      now apply endswith_other.
  - intros. apply in_glob_tif.
  - reflexivity.
  - reflexivity.
  - intros.
    destruct (process_files_from output_dir shapes reference
                (Clip.glob_tif dir) 0 0 w) as (s1 & f1 & E & _ & _ & Hsum).
    exists s1, f1. eexists. split; [exact E | lia].
Qed.

(** The theorem at work on a POSIX directory with a mixed listing. *)
Lemma C10_enumerated_files_witness :
  In "b.tif" (ProjTransformer.input_files ["a.TIF"; "b.tif"; "c.tiff"])
  /\ ~ In ("a" +:+ ".TIF")
       (ProjTransformer.input_files ["a.TIF"; "b.tif"; "c.tiff"])
  /\ In "in/a.tif" (@Clip.glob_tif Demo.posix "in").
Proof.
  destruct (C10_enumerated_files Demo.posix)
    as (Hproj & _ & Hskip & Hglob & _).
  repeat apply conj.
  - apply Hproj. split; [vm_compute; tauto | now exists "b"].
  - apply (Hskip ["a.TIF"; "b.tif"; "c.tiff"] "a").
  - apply Hglob. exists "a.tif".
    repeat split; [vm_compute; tauto | now exists "a"].
Defined.

End Extensions.

(** ** Arithmetic of the grids *)

Section GridFacts.

Local Open Scope Qc_scope.











Lemma target_size_nonzero (size : Z) (pixel target_res : Qc)
    (w : world) :
  target_res <> 0 ->
  Resample.target_size size pixel target_res w = (Ok tt, w).
Proof.
  intros H. unfold Resample.target_size, py_div, bind.
  now destruct (decide (target_res = 0)).
Qed.

End GridFacts.

(** ** The bounds of a resampled raster *)

Section ResampleGrid.

Local Open Scope Qc_scope.




End ResampleGrid.

(** ** The round trip between pixels and world coordinates *)

Section RoundTrip.

Local Open Scope Qc_scope.

(** C7: on a valid grid (pixel-width above zero, pixel-height not
    zero, no rotation) [worldToPixel] undoes [pixelToWorld] at every
    pixel coordinate; over exact numbers the round trip is an equality,
    hence within any tolerance. *)
Theorem C7_world_to_pixel_inverts_pixel_to_world (g : AffineGrid)
    (c r : Qc) :
  Grid.valid g ->
  Grid.worldToPixel g (fst (Grid.pixelToWorld g c r))
    (snd (Grid.pixelToWorld g c r))
  = Some (c, r).
Proof.
  intros (Hpw & Hph & Hrr & Hcr).
  unfold Grid.worldToPixel, Grid.pixelToWorld. cbn [fst snd].
  rewrite Hrr, Hcr.
  assert (Hpw' : pixel_width g <> 0).
  { intros E. rewrite E in Hpw. now apply (Qclt_not_eq 0 0). }
  destruct (decide (pixel_width g = 0)); [contradiction|].
  destruct (decide (pixel_height g = 0)); [contradiction|].
  f_equal. f_equal; field; assumption.
Qed.

(** The theorem at work on the 30 m reference grid, at pixel (3, 4). *)
Lemma C7_world_to_pixel_inverts_pixel_to_world_witness :
  Grid.worldToPixel (Demo.grid 0 2400 30)
    (fst (Grid.pixelToWorld (Demo.grid 0 2400 30) (Qc_of_Z 3) (Qc_of_Z 4)))
    (snd (Grid.pixelToWorld (Demo.grid 0 2400 30) (Qc_of_Z 3) (Qc_of_Z 4)))
  = Some (Qc_of_Z 3, Qc_of_Z 4).
Proof.
  apply C7_world_to_pixel_inverts_pixel_to_world.
  repeat split. discriminate.
Defined.

End RoundTrip.

(** ** The target resolution and the nodata value *)

Section WarpRequests.

Context {B : Backend}.
Local Open Scope string_scope.



Lemma resample_tif_nonzero (target_res : Qc) (method : GRA)
    (input_path output_path : string) (w : world) (src_ds : raster) :
  target_res <> 0%Qc ->
  files w !! input_path = Some (Raster src_ds) ->
  Resample.resample_tif target_res method input_path output_path w
  = try_except
      (Warp output_path src_ds
         (Resample.resample_warp_options target_res method src_ds))
      (Resample.resample_tif_except input_path) w.
Proof.
  intros Hne H.
  unfold Resample.resample_tif, try_except, Resample.resample_tif_try.
  unfold bind at 1 2. unfold gdal_Open. rewrite H. unfold ret.
  unfold bind at 1. rewrite target_size_nonzero by assumption.
  unfold bind at 1. rewrite target_size_nonzero by assumption.
  reflexivity.
Qed.

End WarpRequests.

Section Resolution.

Local Open Scope string_scope.




End Resolution.

Section Nodata.

Local Open Scope string_scope.



End Nodata.

(** ** Clipping *)

Section ClipFacts.

Context {B : Backend}.
Local Open Scope string_scope.

(** Every way a clip with a reference raster can go: nothing is
    written; or the output is created with the metadata of
    [snap_meta] and then either filled with the masked image or left
    unwritten because the writer refused the image. *)
Lemma clip_snap_cases (input_raster output_raster : string)
    (shapes : list shape) (reference_raster : string) (w : world) :
  reference_raster <> "" ->
  let run :=
    Clip.clip_raster_with_shapefile input_raster output_raster shapes
      (Some reference_raster) w in
  (fst run = Ok false /\ files (snd run) = files w)
  \/ exists src ref out_image out_transform,
       files w !! input_raster = Some (Raster src)
       /\ files w !! reference_raster = Some (Raster ref)
       /\ rio_mask src shapes (Clip.snap_args src ref)
          = inr (out_image, out_transform)
       /\ ((fst run = Ok true
            /\ files (snd run)
               = <[output_raster :=
                     Raster {| r_meta := Clip.snap_meta src ref;
                               r_pixels := out_image |}]>
                   (<[output_raster :=
                        Raster {| r_meta := Clip.snap_meta src ref;
                                  r_pixels :=
                                    Clip.unwritten (Clip.snap_meta src ref) |}]>
                      (files w)))
           \/ (fst run = Ok false
               /\ files (snd run)
                  = <[output_raster :=
                        Raster {| r_meta := Clip.snap_meta src ref;
                                  r_pixels :=
                                    Clip.unwritten (Clip.snap_meta src ref) |}]>
                      (files w))).
Proof.
  intros Hne run. subst run.
  assert (Ht : Clip.truthy (Some reference_raster) = true).
  { unfold Clip.truthy. now rewrite (proj2 (String.eqb_neq _ _) Hne). }
  unfold Clip.clip_raster_with_shapefile, Clip.clip_try. rewrite Ht.
  cbv [try_except bind Clip.rasterio_open Clip.snap_to_reference Clip.mask
       ret raise makedirs Clip.rasterio_write put_file Clip.clip_except
       emit default from_option id].
  destruct (files w !! input_raster) as [[src|]|] eqn:Esrc;
    [| left; split; reflexivity ..].
  destruct (files w !! reference_raster) as [[ref|]|] eqn:Eref;
    [| left; split; reflexivity ..].
  destruct (rio_mask src shapes (Clip.snap_args src ref))
    as [e|[out_image out_transform]] eqn:Emask;
    [left; split; reflexivity|].
  destruct (os_makedirs (Path.dirname os_platform output_raster));
    [left; split; reflexivity|].
  destruct (rio_create output_raster (Clip.snap_meta src ref));
    [left; split; reflexivity|].
  right. exists src, ref, out_image, out_transform.
  repeat split; try assumption.
  destruct (rio_write (Clip.snap_meta src ref) out_image);
    [right | left]; split; reflexivity.
Qed.

(** A clip with a reference raster on which [mask] raises. *)
Lemma clip_snap_mask_raises (input_raster output_raster : string)
    (shapes : list shape) (reference_raster : string) (w : world)
    (src ref : raster) (e : exn) :
  reference_raster <> "" ->
  files w !! input_raster = Some (Raster src) ->
  files w !! reference_raster = Some (Raster ref) ->
  rio_mask src shapes (Clip.snap_args src ref) = inl e ->
  Clip.clip_raster_with_shapefile input_raster output_raster shapes
    (Some reference_raster) w
  = (Ok false, with_line w (ClipError input_raster e)).
Proof.
  intros Hne Hsrc Href Hmask. apply clip_caught.
  assert (Ht : Clip.truthy (Some reference_raster) = true).
  { unfold Clip.truthy. now rewrite (proj2 (String.eqb_neq _ _) Hne). }
  unfold Clip.clip_try. rewrite Ht.
  unfold bind, Clip.rasterio_open, Clip.snap_to_reference, bind,
    Clip.rasterio_open, Clip.mask.
  cbn [default from_option id].
  now rewrite Hsrc, Href, Hmask.
Qed.

(** A clip without a reference raster on which [mask] raises. *)
Lemma clip_tight_mask_raises (input_raster output_raster : string)
    (shapes : list shape) (w : world) (src : raster) (e : exn) :
  files w !! input_raster = Some (Raster src) ->
  rio_mask src shapes (Clip.tight_args src) = inl e ->
  Clip.clip_raster_with_shapefile input_raster output_raster shapes None w
  = (Ok false, with_line w (ClipError input_raster e)).
Proof.
  intros Hsrc Hmask. apply clip_caught.
  unfold Clip.clip_try, Clip.truthy, bind, Clip.rasterio_open,
    Clip.tight_crop, bind, Clip.mask.
  now rewrite Hsrc, Hmask.
Qed.

End ClipFacts.

Section ClipClaims.

Local Open Scope string_scope.

(** What the branch with a reference raster is written to do: were a
    file written, it would have the width, the height and the affine
    transform of the reference raster, and no other file would be
    touched. *)
Lemma snap_output_on_reference_grid (B : Backend)
    (input_raster output_raster : string) (shapes : list shape)
    (reference_raster : string) (w : world) :
  reference_raster <> "" ->
  let run :=
    Clip.clip_raster_with_shapefile input_raster output_raster shapes
      (Some reference_raster) w in
  (fst run = Ok false /\ files (snd run) = files w)
  \/ exists ref out,
       files w !! reference_raster = Some (Raster ref)
       /\ files (snd run) !! output_raster = Some (Raster out)
       /\ width (r_meta out) = width (r_meta ref)
       /\ height (r_meta out) = height (r_meta ref)
       /\ transform (r_meta out) = transform (r_meta ref)
       /\ forall path, path <> output_raster ->
                       files (snd run) !! path = files w !! path.
Proof.
  intros Hne run.
  destruct (clip_snap_cases input_raster output_raster shapes
              reference_raster w Hne)
    as [H | (src & ref & out_image & out_transform & _ & Href & _ & H)];
    [now left|].
  right. fold run in H. exists ref.
  destruct H as [[_ ->] | [_ ->]]; eexists;
    (split; [exact Href|]);
    (split; [apply lookup_insert_eq|]);
    repeat split; intros path Hpath;
    now rewrite !lookup_insert_ne by congruence.
Qed.

Lemma demo_mask_rejects_transform (pf : platform) (names : list string) :
  mask_rejects_transform (Demo.backend pf names).
Proof.
  intros src shapes args [t Ht]. cbn [rio_mask Demo.backend].
  now rewrite Ht.
Qed.

(** C1, a defect of the code: the branch with a reference raster calls
    [mask] with [transform=ref_transform], and [mask] has no such
    parameter.  With a readable source and a readable reference the call
    raises [TypeError]; the clip logs it for the file, returns [False]
    and leaves every file as it was, so that no output with the
    reference's width, height and transform is written. *)
Theorem C1_snap_clip_stops_at_mask (B : Backend)
    (input_raster output_raster : string) (shapes : list shape)
    (reference_raster : string) (w : world) (src ref : raster) :
  mask_rejects_transform B ->
  reference_raster <> "" ->
  files w !! input_raster = Some (Raster src) ->
  files w !! reference_raster = Some (Raster ref) ->
  let run :=
    Clip.clip_raster_with_shapefile input_raster output_raster shapes
      (Some reference_raster) w in
  run = (Ok false, with_line w (ClipError input_raster unexpected_transform))
  /\ files (snd run) = files w.
Proof.
  intros Hlib Hne Hsrc Href run.
  assert (E : run = (Ok false,
                     with_line w
                       (ClipError input_raster unexpected_transform))).
  { apply (clip_snap_mask_raises _ _ _ _ _ src ref); try assumption.
    apply Hlib. now eexists. }
  split; [exact E|]. now rewrite E.
Qed.

(** The theorem at work: the 100 x 80 source, the 100 x 80 reference and
    a polygon in one corner; nothing is at the output path afterwards. *)
Lemma C1_snap_clip_stops_at_mask_witness :
  let run :=
    @Clip.clip_raster_with_shapefile Demo.posix "in/a.tif" "out/a.tif"
      Demo.corner (Some "ref.tif") Demo.world0 in
  fst run = Ok false
  /\ console (snd run) = [ClipError "in/a.tif" unexpected_transform]
  /\ files (snd run) !! "out/a.tif" = None.
Proof.
  intros run.
  destruct (C1_snap_clip_stops_at_mask Demo.posix "in/a.tif" "out/a.tif"
              Demo.corner "ref.tif" Demo.world0 Demo.source Demo.reference)
    as [E Hfiles].
  - apply demo_mask_rejects_transform.
  - discriminate.
  - reflexivity.
  - reflexivity.
  - fold run in E, Hfiles. rewrite Hfiles. rewrite E.
    repeat split; reflexivity.
Defined.

(** C9, the same defect of the code: whatever the source, the reference
    and their two CRSs, a clip with a reference raster returns [False]
    and writes no file, because [mask] refuses the keyword [transform];
    no output is ever labelled with the reference's CRS. *)
Theorem C9_snap_clip_labels_nothing (B : Backend)
    (input_raster output_raster : string) (shapes : list shape)
    (reference_raster : string) (w : world) :
  mask_rejects_transform B ->
  reference_raster <> "" ->
  let run :=
    Clip.clip_raster_with_shapefile input_raster output_raster shapes
      (Some reference_raster) w in
  fst run = Ok false /\ files (snd run) = files w.
Proof.
  intros Hlib Hne run.
  destruct (clip_snap_cases input_raster output_raster shapes
              reference_raster w Hne)
    as [H | (src & ref & out_image & out_transform & _ & _ & Hmask & _)];
    [exact H|].
  rewrite Hlib in Hmask by (now eexists). discriminate.
Qed.

(** The theorem at work: the source is in EPSG:32649, the reference in
    EPSG:4547, and no output exists after the clip. *)
Lemma C9_snap_clip_labels_nothing_witness :
  crs (r_meta Demo.source) = "EPSG:32649"
  /\ crs (r_meta Demo.reference) = "EPSG:4547"
  /\ let run :=
       @Clip.clip_raster_with_shapefile Demo.posix "in/a.tif" "out/a.tif"
         Demo.corner (Some "ref.tif") Demo.world0 in
     fst run = Ok false /\ files (snd run) !! "out/a.tif" = None.
Proof.
  split; [reflexivity|]. split; [reflexivity|]. intros run.
  destruct (C9_snap_clip_labels_nothing Demo.posix "in/a.tif" "out/a.tif"
              Demo.corner "ref.tif" Demo.world0) as [E Hfiles].
  - apply demo_mask_rejects_transform.
  - discriminate.
  - fold run in E, Hfiles. rewrite Hfiles. split; [exact E | reflexivity].
Defined.

Lemma demo_mask_refuses_outside (pf : platform) (names : list string) :
  mask_refuses_outside (Demo.backend pf names).
Proof.
  intros src shapes args Hcrop Hout. cbn [rio_mask Demo.backend].
  destruct (mask_transform args); [now eexists|].
  rewrite Hcrop. unfold Grid.outside in Hout. unfold Demo.boxes_apart.
  destruct (Grid.envelope shapes) as [box|].
  - rewrite Hout. now eexists.
  - now eexists.
Qed.

(** C6, as stated, fails: of two polygons, one to the left and one to
    the right of a 10 x 10 raster, none meets the raster, yet their
    common envelope runs across it.  A [mask] that refuses, with
    [crop=True], the sets whose envelope lies outside the raster then
    returns, and the clip reports success and leaves an output file,
    with no error logged. *)
Lemma C6_polygons_on_two_sides_are_clipped :
  mask_refuses_outside Demo.posix
  /\ Grid.apart Demo.two_sides Demo.small = true
  /\ ~ Grid.outside Demo.two_sides Demo.small
  /\ let run :=
       @Clip.clip_raster_with_shapefile Demo.posix "in/a.tif" "out/a.tif"
         Demo.two_sides None Demo.world2 in
     fst run = Ok true
     /\ is_Some (files (snd run) !! "out/a.tif")
     /\ console (snd run) = [].
Proof.
  split; [apply demo_mask_refuses_outside|].
  split; [vm_compute; reflexivity|].
  split; [vm_compute; discriminate|].
  vm_compute. repeat split. now eexists.
Qed.

(** C6, as amended: when the envelope of the geometry set lies outside
    the bounds of the source raster and [mask], called with [crop=True],
    raises as rasterio does, a clip without a reference raster returns
    [False], logs the error for that file and writes nothing, and a turn
    of the batch loop on that file counts one more failure and
    returns. *)
Theorem C6_tight_crop_outside_fails (B : Backend)
    (input_raster output_raster output_dir : string) (shapes : list shape)
    (successful failed : Z) (w : world) (src : raster) :
  mask_refuses_outside B ->
  files w !! input_raster = Some (Raster src) ->
  Grid.outside shapes src ->
  exists e,
    Clip.clip_raster_with_shapefile input_raster output_raster shapes None w
    = (Ok false, with_line w (ClipError input_raster e))
    /\ files (with_line w (ClipError input_raster e)) = files w
    /\ Clip.process_file output_dir shapes None (successful, failed)
         input_raster w
       = (Ok (successful, failed + 1),
          with_line w (ClipError input_raster e)).
Proof.
  intros Hlib Hsrc Hout.
  destruct (Hlib src shapes (Clip.tight_args src) eq_refl Hout) as [e He].
  exists e.
  assert (Hclip : forall output,
             Clip.clip_raster_with_shapefile input_raster output shapes
               None w
             = (Ok false, with_line w (ClipError input_raster e))).
  { intros output. now apply (clip_tight_mask_raises _ _ _ _ src). }
  repeat split.
  - apply Hclip.
  - destruct (process_file_counts output_dir shapes None successful failed
                input_raster w) as (done & E1 & E2).
    cbv zeta in E1. rewrite Hclip in E1 at 1. injection E1 as Hdone Hw.
    subst done. now rewrite <- Hw in E2.
Qed.

(** The theorem at work: a polygon far from the 100 x 80 source. *)
Lemma C6_tight_crop_outside_fails_witness :
  exists e,
    @Clip.clip_raster_with_shapefile Demo.posix "in/a.tif" "out/a.tif"
      Demo.far_away None Demo.world0
    = (Ok false, with_line Demo.world0 (ClipError "in/a.tif" e))
    /\ files (with_line Demo.world0 (ClipError "in/a.tif" e)) !! "out/a.tif"
       = None.
Proof.
  destruct (C6_tight_crop_outside_fails Demo.posix "in/a.tif" "out/a.tif"
              "out" Demo.far_away 0 0 Demo.world0 Demo.source)
    as (e & Hclip & Hfiles & _).
  - apply demo_mask_refuses_outside.
  - reflexivity.
  - vm_compute. reflexivity.
  - exists e. split; [exact Hclip|]. rewrite Hfiles. reflexivity.
Defined.

End ClipClaims.

(** ** The scripts at work *)

Section Runs.

Local Open Scope string_scope.

(** The clip batch on a directory of two files, one of them missing
    from the file system: [mask] refuses the first, the second cannot be
    opened; two failures, the summary at the end, and no file
    written. *)
Example clip_batch_run :
  let run :=
    @Clip.main_on Demo.posix
      {| Clip.shapefile_path := "boundary.shp"; Clip.raster_dir := "in";
         Clip.output_dir := "out"; Clip.reference_raster_path := "ref.tif" |}
      Demo.world0 in
  fst run = Ok tt
  /\ last (console (snd run)) = Some (ClipSummary 2 0 2 "ref.tif")
  /\ files (snd run) = files Demo.world0.
Proof. vm_compute. repeat split. Qed.

(** The resample script at 60 m with the default output folder. *)
Example resample_script_run :
  let run :=
    @Resample.script Demo.posix
      {| Resample.typed_input_folder := "in";
         Resample.typed_use_default := "Y";
         Resample.typed_output_folder := "";
         Resample.typed_target_res := Some (Finite (Qc_of_Z 60));
         Resample.typed_method_choice := Some 2 |}
      Demo.world0 in
  fst run = Ok tt
  /\ is_Some (files (snd run) !! "in/resampled/60m_a.tif")
  /\ last (console (snd run)) = Some (ResampleDone "in/resampled").
Proof. vm_compute. repeat split. now eexists. Qed.

(** A resolution that [float] does not parse ends the script before any
    file is read. *)
Example resample_script_rejects_text :
  @Resample.script Demo.posix
    {| Resample.typed_input_folder := "in";
       Resample.typed_use_default := "y";
       Resample.typed_output_folder := "";
       Resample.typed_target_res := None;
       Resample.typed_method_choice := Some 2 |}
    Demo.world0
  = (Exit 1,
     {| files := files Demo.world0;
        console := [Printed "==== 栅格重采样工具 ====";
                    Printed "错误: 请输入有效的数值"] |}).
Proof. vm_compute. reflexivity. Qed.

End Runs.

(** * Further properties of the scripts *)

(** ** Files and console lines that a computation leaves alone *)

Create HintDb frames.

Section Frames.

Context {B : Backend}.

Lemma writes_within_weaken {A} (P Q : string -> Prop) (m : M A) :
  (forall path, P path -> Q path) -> writes_within P m -> writes_within Q m.
Proof. intros HPQ Hm w path Hn. apply Hm. intros HP. now apply Hn, HPQ. Qed.

Lemma writes_within_ret {A} (P : string -> Prop) (a : A) :
  writes_within P (ret a).
Proof. now intros w path _. Qed.

Lemma writes_within_raise {A} (P : string -> Prop) (e : exn) :
  writes_within P (@raise A e).
Proof. now intros w path _. Qed.

Lemma writes_within_exit {A} (P : string -> Prop) (c : Z) :
  writes_within P (@exit A c).
Proof. now intros w path _. Qed.

Lemma writes_within_bind {A C} (P : string -> Prop) (m : M A) (k : A -> M C) :
  writes_within P m -> (forall a, writes_within P (k a)) ->
  writes_within P (bind m k).
Proof.
  intros Hm Hk w path Hn. specialize (Hm w path Hn).
  unfold after, bind in *. destruct (m w) as [[a|e|c] w1]; cbn [snd] in *;
    try assumption.
  rewrite <- Hm. now apply Hk.
Qed.

Lemma writes_within_bind_ret {A C} (P : string -> Prop) (a : A)
    (k : A -> M C) :
  writes_within P (k a) -> writes_within P (bind (ret a) k).
Proof. intros H w path Hn. exact (H w path Hn). Qed.

Lemma writes_within_bind_raise {A C} (P : string -> Prop) (e : exn)
    (k : A -> M C) :
  writes_within P (bind (raise e) k).
Proof. now intros w path _. Qed.

Lemma bind_ok_inv {A C} (m : M A) (k : A -> M C) (w w' : world) (c : C) :
  bind m k w = (Ok c, w') ->
  exists a w1, m w = (Ok a, w1) /\ k a w1 = (Ok c, w').
Proof.
  unfold bind. destruct (m w) as [[a|e|x] w1]; try discriminate.
  intros H. now exists a, w1.
Qed.

Lemma writes_within_try_except {A} (P : string -> Prop) (body : M A)
    (handler : exn -> M A) :
  writes_within P body -> (forall e, writes_within P (handler e)) ->
  writes_within P (try_except body handler).
Proof.
  intros Hb Hh w path Hn. specialize (Hb w path Hn).
  unfold after, try_except in *. destruct (body w) as [[a|e|c] w1];
    cbn [snd] in *; try assumption.
  rewrite <- Hb. now apply Hh.
Qed.

Lemma writes_within_emit (P : string -> Prop) (l : line) :
  writes_within P (emit l).
Proof. now intros w path _. Qed.

Lemma writes_within_put_file (P : string -> Prop) (p : string) (f : file) :
  P p -> writes_within P (put_file p f).
Proof.
  intros HP w path Hn. unfold after, put_file. cbn.
  apply lookup_insert_ne. now intros ->.
Qed.

Lemma writes_within_os_path_exists (P : string -> Prop) (p : string) :
  writes_within P (os_path_exists p).
Proof. now intros w path _. Qed.

Lemma writes_within_makedirs (P : string -> Prop) (p : string) :
  writes_within P (makedirs p).
Proof. unfold makedirs. now destruct (os_makedirs p); intros w path _. Qed.

Lemma writes_within_listdir (P : string -> Prop) (p : string) :
  writes_within P (listdir p).
Proof. unfold listdir. now destruct (os_listdir p); intros w path _. Qed.

Lemma writes_within_gdal_Open (P : string -> Prop) (p : string) :
  writes_within P (gdal_Open p).
Proof. now intros w path _. Qed.

Lemma writes_within_receiver (P : string -> Prop) (ds : option raster)
    (attr : string) :
  writes_within P (receiver ds attr).
Proof. now destruct ds; intros w path _. Qed.

Lemma writes_within_Warp (P : string -> Prop) (p : string) (r : raster)
    (o : WarpOptions) :
  P p -> writes_within P (Warp p r o).
Proof.
  intros HP w path Hn. unfold after, Warp.
  destruct (gdal_Warp p r o) as [raised [f|]]; cbn; [|reflexivity].
  apply lookup_insert_ne. now intros ->.
Qed.

Lemma writes_within_py_div (P : string -> Prop) (a b : Qc) :
  writes_within P (py_div a b).
Proof.
  unfold py_div. now destruct (decide (b = 0%Qc)); intros w path _.
Qed.

Lemma writes_within_rasterio_open (P : string -> Prop) (p : string) :
  writes_within P (Clip.rasterio_open p).
Proof.
  intros w path _. unfold after, Clip.rasterio_open.
  now destruct (files w !! p) as [[r|]|].
Qed.

Lemma writes_within_mask (P : string -> Prop) (src : raster)
    (shapes : list shape) (a : MaskArgs) :
  writes_within P (Clip.mask src shapes a).
Proof.
  unfold Clip.mask. now destruct (rio_mask src shapes a); intros w path _.
Qed.

Lemma writes_within_for_each {A} (P : string -> Prop) (xs : list A)
    (body : A -> M unit) :
  (forall x, In x xs -> writes_within P (body x)) ->
  writes_within P (for_each xs body).
Proof.
  induction xs as [|x xs IH]; intros Hbody.
  - apply writes_within_ret.
  - cbn [for_each]. apply writes_within_bind.
    + apply Hbody. now left.
    + intros _. apply IH. intros y Hy. apply Hbody. now right.
Qed.

Lemma writes_within_for_fold {A S} (P : string -> Prop) (xs : list A)
    (body : S -> A -> M S) (s : S) :
  (forall s x, In x xs -> writes_within P (body s x)) ->
  writes_within P (for_fold xs body s).
Proof.
  revert s. induction xs as [|x xs IH]; intros s Hbody.
  - apply writes_within_ret.
  - cbn [for_fold]. apply writes_within_bind.
    + apply Hbody. now left.
    + intros s'. apply IH. intros s0 y Hy. apply Hbody. now right.
Qed.

Lemma quiet_ret {A} (a : A) : quiet (ret a).
Proof. now intros w. Qed.

Lemma quiet_raise {A} (e : exn) : quiet (@raise A e).
Proof. now intros w. Qed.

Lemma quiet_bind {A C} (m : M A) (k : A -> M C) :
  quiet m -> (forall a, quiet (k a)) -> quiet (bind m k).
Proof.
  intros Hm Hk w. specialize (Hm w).
  unfold after, bind in *. destruct (m w) as [[a|e|c] w1]; cbn [snd] in *;
    try assumption.
  rewrite <- Hm. apply Hk.
Qed.

Lemma quiet_put_file (p : string) (f : file) : quiet (put_file p f).
Proof. now intros w. Qed.

Lemma quiet_os_path_exists (p : string) : quiet (os_path_exists p).
Proof. now intros w. Qed.

Lemma quiet_makedirs (p : string) : quiet (makedirs p).
Proof. unfold makedirs. now destruct (os_makedirs p); intros w. Qed.

Lemma quiet_listdir (p : string) : quiet (listdir p).
Proof. unfold listdir. now destruct (os_listdir p); intros w. Qed.

Lemma quiet_gdal_Open (p : string) : quiet (gdal_Open p).
Proof. now intros w. Qed.

Lemma quiet_receiver (ds : option raster) (attr : string) :
  quiet (receiver ds attr).
Proof. now destruct ds; intros w. Qed.

Lemma quiet_Warp (p : string) (r : raster) (o : WarpOptions) :
  quiet (Warp p r o).
Proof.
  intros w. unfold after, Warp. now destruct (gdal_Warp p r o) as [raised [f|]].
Qed.

Lemma quiet_py_div (a b : Qc) : quiet (py_div a b).
Proof. unfold py_div. now destruct (decide (b = 0%Qc)); intros w. Qed.

Lemma quiet_rasterio_open (p : string) : quiet (Clip.rasterio_open p).
Proof.
  intros w. unfold after, Clip.rasterio_open.
  now destruct (files w !! p) as [[r|]|].
Qed.

Lemma quiet_mask (src : raster) (shapes : list shape) (a : MaskArgs) :
  quiet (Clip.mask src shapes a).
Proof. unfold Clip.mask. now destruct (rio_mask src shapes a); intros w. Qed.

Lemma quiet_for_each {A} (xs : list A) (body : A -> M unit) :
  (forall x, quiet (body x)) -> quiet (for_each xs body).
Proof.
  intros Hbody. induction xs as [|x xs IH].
  - apply quiet_ret.
  - cbn [for_each]. apply quiet_bind; [apply Hbody | intros _; apply IH].
Qed.

End Frames.

#[export] Hint Resolve writes_within_ret writes_within_raise writes_within_exit
  writes_within_emit writes_within_os_path_exists writes_within_makedirs
  writes_within_listdir writes_within_gdal_Open writes_within_receiver
  writes_within_py_div writes_within_rasterio_open writes_within_mask
  quiet_ret quiet_raise quiet_put_file quiet_os_path_exists quiet_makedirs
  quiet_listdir quiet_gdal_Open quiet_receiver quiet_Warp quiet_py_div
  quiet_rasterio_open quiet_mask : frames.

Ltac frame_step :=
  match goal with
  | |- writes_within _ (bind _ _) => apply writes_within_bind; [|intros]
  | |- writes_within _ (try_except _ _) =>
      apply writes_within_try_except; [|intros]
  | |- writes_within _ (put_file _ _) => apply writes_within_put_file
  | |- writes_within _ (Warp _ _ _) => apply writes_within_Warp
  | |- quiet (bind _ _) => apply quiet_bind; [|intros]
  | |- writes_within _ (match ?x with _ => _ end) => destruct x
  | |- quiet (match ?x with _ => _ end) => destruct x
  | |- writes_within _ _ => solve [auto with frames]
  | |- quiet _ => solve [auto with frames]
  end.

Ltac frame := repeat frame_step.

(** ** The reprojection batch *)

Section ReprojectBatch.

Local Open Scope string_scope.

Lemma reproject_raster_frame {B : Backend} (input_path output_path : string)
    (target_srs : SpatialReference) :
  writes_within (eq output_path)
    (ProjTransformer.reproject_raster input_path output_path target_srs)
  /\ quiet (ProjTransformer.reproject_raster input_path output_path target_srs).
Proof. unfold ProjTransformer.reproject_raster. split; frame. reflexivity. Qed.

Lemma reproject_raster_readable {B : Backend} (input_path output_path : string)
    (target_srs : SpatialReference) (w : world) (src_ds : raster) :
  files w !! input_path = Some (Raster src_ds) ->
  (forall p r o, fst (gdal_Warp p r o) = None) ->
  ProjTransformer.reproject_raster input_path output_path target_srs w
  = (Ok tt,
     after (ProjTransformer.reproject_raster input_path output_path
              target_srs) w).
Proof.
  intros Hsrc Hwarp.
  unfold after, ProjTransformer.reproject_raster, bind, gdal_Open.
  rewrite Hsrc. cbn [receiver ret]. unfold Warp.
  specialize (Hwarp output_path src_ds
                (ProjTransformer.reproject_warp_options
                   (ImportFromWkt (GetProjection src_ds)) target_srs)).
  destruct (gdal_Warp _ _ _) as [raised written]. cbn in Hwarp.
  now subst raised.
Qed.

(** X1: when the reference raster cannot be opened the reprojection batch
    ends at once with the [AttributeError] of [ds.GetProjection()] on
    [None]: no file is read or written and nothing is printed. *)
Theorem X1_reproject_unreadable_reference (B : Backend)
    (input_dir output_dir reference_raster : string) (w : world) :
  (forall r, files w !! reference_raster <> Some (Raster r)) ->
  ProjTransformer.get_srs_from_raster reference_raster w
  = (Raise (AttributeError
              "'NoneType' object has no attribute 'GetProjection'"), w)
  /\ ProjTransformer.batch_reproject input_dir output_dir reference_raster w
     = (Raise (AttributeError
                 "'NoneType' object has no attribute 'GetProjection'"), w).
Proof.
  intros H.
  assert (E : ProjTransformer.get_srs_from_raster reference_raster w
              = (Raise (AttributeError
                          "'NoneType' object has no attribute 'GetProjection'"),
                 w)).
  { unfold ProjTransformer.get_srs_from_raster, bind, gdal_Open.
    destruct (files w !! reference_raster) as [[r|]|] eqn:E; try reflexivity.
    now destruct (H r). }
  split; [exact E|].
  unfold ProjTransformer.batch_reproject. unfold bind at 1. now rewrite E.
Qed.

Lemma X1_reproject_unreadable_reference_witness :
  @ProjTransformer.batch_reproject Demo.posix "in" "out" "in/a.tif"
    Demo.world1
  = (Raise (AttributeError
              "'NoneType' object has no attribute 'GetProjection'"),
     Demo.world1).
Proof.
  apply (X1_reproject_unreadable_reference Demo.posix "in" "out" "in/a.tif").
  intros r. vm_compute. discriminate.
Defined.

(** X2: the reprojection batch prints nothing and changes no file other
    than the output paths [output_dir/<name>] of the directory entries
    that end with [.tif], however it ends. *)
Theorem X2_reproject_batch_frame (B : Backend)
    (input_dir output_dir reference_raster : string) (w : world) :
  let w' :=
    after (ProjTransformer.batch_reproject input_dir output_dir
             reference_raster) w in
  console w' = console w
  /\ forall path,
       (forall f, In f (default [] (os_listdir input_dir)) ->
                  Str.endswith f ".tif" = true ->
                  path <> Path.join os_platform output_dir f) ->
       files w' !! path = files w !! path.
Proof.
  cbv zeta. split.
  - revert w. change (quiet (ProjTransformer.batch_reproject input_dir
                               output_dir reference_raster)).
    unfold ProjTransformer.batch_reproject,
      ProjTransformer.get_srs_from_raster, ProjTransformer.reproject_each.
    frame. apply quiet_for_each. intros f. apply reproject_raster_frame.
  - intros path Hpath.
    apply (writes_within_bind
             (fun p => exists f, In f (default [] (os_listdir input_dir))
                                 /\ Str.endswith f ".tif" = true
                                 /\ p = Path.join os_platform output_dir f)).
    + unfold ProjTransformer.get_srs_from_raster. frame.
    + intros srs. apply writes_within_bind; [frame|]. intros _.
      unfold listdir. destruct (os_listdir input_dir) as [names|].
      * apply writes_within_bind_ret.
        unfold ProjTransformer.reproject_each.
        apply writes_within_for_each. intros f Hf.
        apply List.filter_In in Hf. destruct Hf as [Hin Htif].
        apply (writes_within_weaken
                 (eq (Path.join os_platform output_dir f)));
          [|apply reproject_raster_frame].
        intros p <-. now exists f.
      * apply writes_within_bind_raise.
    + intros (f & Hin & Htif & ->). now apply (Hpath f).
Qed.

Lemma X2_reproject_batch_frame_witness :
  files (after (@ProjTransformer.batch_reproject Demo.posix "in" "out"
                  "ref.tif") Demo.world3) !! "in/a.tif"
  = Some (Raster Demo.source).
Proof.
  rewrite (proj2 (X2_reproject_batch_frame Demo.posix "in" "out" "ref.tif"
                    Demo.world3)).
  - reflexivity.
  - intros f [<-|[<-|[]]] _; vm_compute; discriminate.
Defined.

Lemma app_inv_head (p b b' : string) : p +:+ b = p +:+ b' -> b = b'.
Proof.
  induction p as [|c p IH]; [trivial|].
  rewrite !app_cons. intros H. injection H as H. now apply IH.
Qed.

(** [os.path.join] with the same directory keeps different names apart. *)
Lemma join_inj (pf : platform) (dir b b' : string) :
  Path.join pf dir b = Path.join pf dir b' -> b = b'.
Proof.
  unfold Path.join. destruct (String.eqb dir ""); [trivial|].
  destruct (Path.ends_with_sep pf dir); intros H.
  - now apply app_inv_head in H.
  - now do 2 apply app_inv_head in H.
Qed.

Lemma reproject_raster_output {B : Backend} (input_path output_path : string)
    (target_srs : SpatialReference) (w : world) (src_ds : raster) (out : file) :
  files w !! input_path = Some (Raster src_ds) ->
  snd (gdal_Warp output_path src_ds
         (ProjTransformer.reproject_warp_options
            (ImportFromWkt (GetProjection src_ds)) target_srs)) = Some out ->
  files (after (ProjTransformer.reproject_raster input_path output_path
                  target_srs) w) !! output_path = Some out.
Proof.
  intros Hsrc Hout.
  unfold after, ProjTransformer.reproject_raster, bind, gdal_Open.
  rewrite Hsrc. cbn [receiver ret]. unfold Warp.
  destruct (gdal_Warp _ _ _) as [raised written]. cbn in Hout. subst written.
  cbn. apply lookup_insert_eq.
Qed.

Lemma reproject_each_frame {B : Backend} (input_dir output_dir : string)
    (target_srs : SpatialReference) (filenames : list string) :
  writes_within
    (fun p => exists g, In g filenames
                        /\ p = Path.join os_platform output_dir g)
    (ProjTransformer.reproject_each input_dir output_dir target_srs filenames).
Proof.
  unfold ProjTransformer.reproject_each.
  apply writes_within_for_each. intros g Hg.
  apply (writes_within_weaken (eq (Path.join os_platform output_dir g)));
    [|apply reproject_raster_frame].
  intros p <-. now exists g.
Qed.

(** X3: when every listed input is a readable raster, no output path is
    an input path and the warp raises nothing, the reprojection loop
    returns normally, leaves every input as it was, and each output path
    holds what the warp wrote for its input, from the input's own
    projection to the target one. *)
Theorem X3_reproject_each_succeeds (B : Backend)
    (input_dir output_dir : string) (target_srs : SpatialReference)
    (filenames : list string) (w : world) :
  (forall p r o, fst (gdal_Warp p r o) = None) ->
  (forall f, In f filenames ->
             exists r, files w !! Path.join os_platform input_dir f
                       = Some (Raster r)) ->
  (forall f g, In f filenames -> In g filenames ->
               Path.join os_platform input_dir f
               <> Path.join os_platform output_dir g) ->
  exists w',
    ProjTransformer.reproject_each input_dir output_dir target_srs filenames w
    = (Ok tt, w')
    /\ (forall f, In f filenames ->
                  files w' !! Path.join os_platform input_dir f
                  = files w !! Path.join os_platform input_dir f)
    /\ (forall f r out,
           In f filenames ->
           files w !! Path.join os_platform input_dir f = Some (Raster r) ->
           snd (gdal_Warp (Path.join os_platform output_dir f) r
                  (ProjTransformer.reproject_warp_options
                     (ImportFromWkt (GetProjection r)) target_srs))
           = Some out ->
           files w' !! Path.join os_platform output_dir f = Some out).
Proof.
  intros Hwarp. revert w.
  induction filenames as [|f fs IH]; intros w Hread Hdisj.
  - exists w. repeat split; intros; contradiction.
  - destruct (Hread f (or_introl eq_refl)) as [r Hr].
    pose proof (reproject_raster_readable
                  (Path.join os_platform input_dir f)
                  (Path.join os_platform output_dir f) target_srs w r Hr Hwarp)
      as Hrun.
    set (w1 := after (ProjTransformer.reproject_raster
                        (Path.join os_platform input_dir f)
                        (Path.join os_platform output_dir f) target_srs) w)
      in *.
    assert (Hframe : forall p, p <> Path.join os_platform output_dir f ->
                               files w1 !! p = files w !! p).
    { intros p Hp.
      apply (proj1 (reproject_raster_frame _ _ target_srs) w p). congruence. }
    assert (Hin : forall g, In g (f :: fs) ->
                            files w1 !! Path.join os_platform input_dir g
                            = files w !! Path.join os_platform input_dir g).
    { intros g Hg. apply Hframe. apply Hdisj; [exact Hg | now left]. }
    destruct (IH w1) as (w' & Hloop & Hkeep & Hout).
    { intros g Hg. rewrite Hin by now right. apply Hread. now right. }
    { intros g h Hg Hh. apply Hdisj; now right. }
    assert (Hrest : forall p, (forall g, In g fs ->
                                         p <> Path.join os_platform output_dir g) ->
                              files w' !! p = files w1 !! p).
    { intros p Hp.
      replace w' with (after (ProjTransformer.reproject_each input_dir
                                output_dir target_srs fs) w1)
        by (unfold after; now rewrite Hloop).
      apply reproject_each_frame. intros (g & Hg & E). now apply (Hp g). }
    exists w'. split; [|split].
    + unfold ProjTransformer.reproject_each in *. cbn [for_each].
      unfold bind at 1. now rewrite Hrun.
    + intros g Hg. rewrite Hrest; [now apply Hin|].
      intros h Hh. apply Hdisj; [exact Hg | now right].
    + intros g r' out [<-|Hg] Hr' Hw.
      * destruct (in_dec string_dec f fs) as [Hf|Hf].
        -- apply (Hout f r' out Hf); [|exact Hw].
           rewrite Hin by now left. exact Hr'.
        -- rewrite Hrest.
           ++ now apply (reproject_raster_output _ _ _ _ r').
           ++ intros g Hg E. apply join_inj in E. now subst g.
      * apply (Hout g r' out Hg); [|exact Hw].
        rewrite Hin by now right. exact Hr'.
Qed.

Lemma X3_reproject_each_succeeds_witness :
  exists w',
    @ProjTransformer.reproject_each Demo.posix "in" "out"
      {| wkt := "EPSG:4547" |} ["a.tif"; "b.tif"] Demo.world3 = (Ok tt, w')
    /\ files w' !! "out/b.tif" = Some (Raster Demo.small).
Proof.
  destruct (X3_reproject_each_succeeds Demo.posix "in" "out"
              {| wkt := "EPSG:4547" |} ["a.tif"; "b.tif"] Demo.world3)
    as (w' & Hrun & _ & Hout).
  - reflexivity.
  - intros f [<-|[<-|[]]]; eexists; reflexivity.
  - intros f g [<-|[<-|[]]] [<-|[<-|[]]]; vm_compute; discriminate.
  - exists w'. split; [exact Hrun|].
    apply (Hout "b.tif" Demo.small); [now right; left | reflexivity..].
Defined.

Lemma batch_reproject_quiet {B : Backend}
    (input_dir output_dir reference_raster : string) :
  quiet (ProjTransformer.batch_reproject input_dir output_dir reference_raster).
Proof.
  unfold ProjTransformer.batch_reproject,
    ProjTransformer.get_srs_from_raster, ProjTransformer.reproject_each.
  frame. apply quiet_for_each. intros f. apply reproject_raster_frame.
Qed.

(** Every way the [__main__] block of the reprojection script can go. *)
Lemma reproject_main_cases {B : Backend}
    (input_dir output_dir reference_raster : string) (w : world) :
  let w0 :=
    with_line w
      (Printed "请输入以下路径信息（可直接复制粘贴带引号的路径）：") in
  ProjTransformer.main input_dir output_dir reference_raster w
  = if negb (bool_decide (is_Some (files w !! input_dir))
             || os_isdir input_dir)
    then (Exit 1,
          with_line w0 (Printed ("错误: 输入目录不存在: " +:+ input_dir)))
    else if negb (bool_decide (is_Some (files w !! reference_raster))
                  || os_isdir reference_raster)
    then (Exit 1,
          with_line w0
            (Printed ("错误: 参考栅格文件不存在: " +:+ reference_raster)))
    else match os_makedirs output_dir with
         | Some e => (Raise e, w0)
         | None =>
             match ProjTransformer.batch_reproject input_dir output_dir
                     reference_raster w0 with
             | (Ok _, w1) =>
                 (Ok tt,
                  with_line w1 (Printed "All files processed successfully!"))
             | other => other
             end
         end.
Proof.
  cbv zeta. unfold ProjTransformer.main.
  unfold bind at 1. cbn [emit]. unfold bind at 1. cbn [os_path_exists files with_line].
  destruct (negb (bool_decide (is_Some (files w !! input_dir))
                  || os_isdir input_dir)); [reflexivity|].
  unfold bind at 1. cbn [os_path_exists files with_line].
  destruct (negb (bool_decide (is_Some (files w !! reference_raster))
                  || os_isdir reference_raster)); [reflexivity|].
  unfold bind at 1. unfold makedirs at 1.
  destruct (os_makedirs output_dir); [reflexivity|]. cbn [ret].
  unfold bind at 1.
  destruct (ProjTransformer.batch_reproject _ _ _ _) as [[[]|e|c] w1];
    reflexivity.
Qed.

(** X4: a missing input directory, or a missing reference raster, ends
    the reprojection script with exit code 1 after one error line, before
    any file is read or written. *)
Theorem X4_reproject_main_missing_paths (B : Backend)
    (input_dir output_dir reference_raster : string) (w : world) :
  let w0 :=
    with_line w
      (Printed "请输入以下路径信息（可直接复制粘贴带引号的路径）：") in
  (files w !! input_dir = None -> os_isdir input_dir = false ->
   ProjTransformer.main input_dir output_dir reference_raster w
   = (Exit 1,
      with_line w0 (Printed ("错误: 输入目录不存在: " +:+ input_dir))))
  /\ (os_isdir input_dir = true ->
      files w !! reference_raster = None ->
      os_isdir reference_raster = false ->
      ProjTransformer.main input_dir output_dir reference_raster w
      = (Exit 1,
         with_line w0
           (Printed ("错误: 参考栅格文件不存在: " +:+ reference_raster)))).
Proof.
  cbv zeta. split.
  - intros Hf Hd. rewrite reproject_main_cases. cbv zeta. rewrite Hf, Hd.
    reflexivity.
  - intros Hi Hf Hd. rewrite reproject_main_cases. cbv zeta.
    rewrite Hi, Hf, Hd, orb_true_r. reflexivity.
Qed.

Lemma X4_reproject_main_missing_paths_witness :
  fst (@ProjTransformer.main Demo.no_dirs "in" "out" "ref.tif" Demo.world0)
  = Exit 1.
Proof.
  rewrite (proj1 (X4_reproject_main_missing_paths Demo.no_dirs "in" "out"
                    "ref.tif" Demo.world0)); reflexivity.
Defined.

(** X5: the reprojection script ends with the line [All files processed
    successfully!] exactly when it returns normally: after an exit or an
    exception that line is not printed. *)
Theorem X5_reproject_main_success_line (B : Backend)
    (input_dir output_dir reference_raster : string) (w : world) :
  let run := ProjTransformer.main input_dir output_dir reference_raster w in
  fst run = Ok tt
  <-> last (console (snd run))
      = Some (Printed "All files processed successfully!").
Proof.
  cbv zeta. rewrite reproject_main_cases. cbv zeta.
  destruct (negb (bool_decide (is_Some (files w !! input_dir))
                  || os_isdir input_dir)).
  { cbn [fst snd with_line console]. rewrite last_snoc.
    split; [discriminate|]. intros H. cbv in H. discriminate. }
  destruct (negb (bool_decide (is_Some (files w !! reference_raster))
                  || os_isdir reference_raster)).
  { cbn [fst snd with_line console]. rewrite last_snoc.
    split; [discriminate|]. intros H. cbv in H. discriminate. }
  destruct (os_makedirs output_dir).
  { cbn [fst snd with_line console]. rewrite last_snoc.
    split; discriminate. }
  pose proof (batch_reproject_quiet input_dir output_dir reference_raster
                (with_line w
                   (Printed "请输入以下路径信息（可直接复制粘贴带引号的路径）：")))
    as Hq.
  unfold after in Hq.
  destruct (ProjTransformer.batch_reproject _ _ _ _) as [[[]|e|c] w1];
    cbn [fst snd with_line console] in *.
  - rewrite last_snoc. now split.
  - rewrite Hq, last_snoc. split; discriminate.
  - rewrite Hq, last_snoc. split; discriminate.
Qed.

End ReprojectBatch.

(** ** The resample script *)

Section ResampleScript.

Local Open Scope string_scope.

(** X7: in one resample batch two different file names never get the same
    output path, so no output of the batch overwrites another. *)
Theorem X7_resample_outputs_distinct (pf : platform) (output_folder : string)
    (target_res : Qc) (f f' : string) :
  f <> f' ->
  Path.join pf output_folder (Resample.output_name target_res f)
  <> Path.join pf output_folder (Resample.output_name target_res f').
Proof.
  intros Hne E. apply Hne. apply join_inj in E.
  unfold Resample.output_name in E. now do 2 apply app_inv_head in E.
Qed.

Lemma X7_resample_outputs_distinct_witness :
  Path.join Posix "out" (Resample.output_name (Qc_of_Z 30) "a.tif")
  <> Path.join Posix "out" (Resample.output_name (Qc_of_Z 30) "b.tif").
Proof. apply X7_resample_outputs_distinct. discriminate. Defined.

Lemma target_size_frame (size : Z) (pixel target_res : Qc) :
  (forall P, writes_within P (Resample.target_size size pixel target_res))
  /\ quiet (Resample.target_size size pixel target_res).
Proof. unfold Resample.target_size. split; [intros P|]; frame. Qed.

Lemma resample_tif_try_frame {B : Backend} (target_res : Qc) (method : GRA)
    (input_path output_path : string) :
  writes_within (eq output_path)
    (Resample.resample_tif_try target_res method input_path output_path)
  /\ quiet (Resample.resample_tif_try target_res method input_path
              output_path).
Proof.
  unfold Resample.resample_tif_try.
  split; frame; try apply target_size_frame; reflexivity.
Qed.

(** X8: whatever happens to one file, [resample_tif] returns normally,
    changes no file other than its output path, and prints either nothing
    or one error line that names the input file. *)
Theorem X8_resample_tif_contained (B : Backend) (target_res : Qc)
    (method : GRA) (input_path output_path : string) (w : world) :
  exists w',
    Resample.resample_tif target_res method input_path output_path w
    = (Ok tt, w')
    /\ (forall path, path <> output_path ->
                     files w' !! path = files w !! path)
    /\ (console w' = console w
        \/ exists e,
             console w'
             = (console w
                ++ [ResampleError (Path.basename os_platform input_path) e])%list).
Proof.
  destruct (resample_tif_try_frame target_res method input_path output_path)
    as [Hfiles Hquiet].
  pose proof (resample_tif_try_never_exits target_res method input_path
                output_path w) as Hexit.
  specialize (Hquiet w). unfold after in Hquiet.
  assert (Hframe : forall path, path <> output_path ->
            files (snd (Resample.resample_tif_try target_res method
                          input_path output_path w)) !! path
            = files w !! path).
  { intros path Hp. apply (Hfiles w path). congruence. }
  unfold Resample.resample_tif, try_except.
  destruct (Resample.resample_tif_try target_res method input_path
              output_path w) as [[[]|e|c] w1]; cbn [snd] in *.
  - exists w1. repeat split; [exact Hframe | now left].
  - eexists. split; [reflexivity|]. split.
    + exact Hframe.
    + right. exists e. cbn. now rewrite Hquiet.
  - now destruct (Hexit c w1).
Qed.

Lemma X8_resample_tif_contained_witness :
  exists w',
    @Resample.resample_tif Demo.posix (Qc_of_Z 60) GRA_Bilinear "in/b.tif"
      "out/60m_b.tif" Demo.world0 = (Ok tt, w')
    /\ files w' !! "in/a.tif" = Some (Raster Demo.source).
Proof.
  destruct (X8_resample_tif_contained Demo.posix (Qc_of_Z 60) GRA_Bilinear
              "in/b.tif" "out/60m_b.tif" Demo.world0)
    as (w' & Hrun & Hframe & _).
  exists w'. split; [exact Hrun|].
  rewrite Hframe by discriminate. reflexivity.
Defined.

(** X9: nothing is cleaned up after a failed warp: when the warp raises
    after leaving a file at the output path, [resample_tif] prints the
    error for the input file, returns normally, and that file stays. *)
Theorem X9_resample_failed_warp_leaves_file (B : Backend) (target_res : Qc)
    (method : GRA) (input_path output_path : string) (w : world)
    (src_ds : raster) (e : exn) (left_behind : file) :
  target_res <> 0%Qc ->
  files w !! input_path = Some (Raster src_ds) ->
  gdal_Warp output_path src_ds
    (Resample.resample_warp_options target_res method src_ds)
  = (Some e, Some left_behind) ->
  Resample.resample_tif target_res method input_path output_path w
  = (Ok tt,
     {| files := <[output_path := left_behind]> (files w);
        console :=
          (console w
           ++ [ResampleError (Path.basename os_platform input_path) e])%list |}).
Proof.
  intros Hne Hsrc Hwarp.
  rewrite (resample_tif_nonzero _ _ _ _ _ src_ds) by assumption.
  unfold try_except, Warp. now rewrite Hwarp.
Qed.

Lemma X9_resample_failed_warp_leaves_file_witness :
  @Resample.resample_tif Demo.failing_warp (Qc_of_Z 60) GRA_Bilinear
    "in/a.tif" "out/60m_a.tif" Demo.world2
  = (Ok tt,
     {| files := <["out/60m_a.tif" := Unreadable]> (files Demo.world2);
        console :=
          [ResampleError "a.tif" (LibraryError "warp failed")] |}).
Proof.
  apply (X9_resample_failed_warp_leaves_file Demo.failing_warp (Qc_of_Z 60)
           GRA_Bilinear "in/a.tif" "out/60m_a.tif" Demo.world2 Demo.small).
  - discriminate.
  - reflexivity.
  - reflexivity.
Defined.

Lemma resample_tif_frame {B : Backend} (target_res : Qc) (method : GRA)
    (input_path output_path : string) :
  writes_within (eq output_path)
    (Resample.resample_tif target_res method input_path output_path).
Proof.
  unfold Resample.resample_tif, Resample.resample_tif_except.
  apply writes_within_try_except; [apply resample_tif_try_frame|].
  intros e. apply writes_within_emit.
Qed.

Lemma print_each_returns (texts : list string) (w : world) :
  for_each texts (fun text => emit (Printed text)) w
  = (Ok tt, after (for_each texts (fun text => emit (Printed text))) w)
  /\ files (after (for_each texts (fun text => emit (Printed text))) w)
     = files w.
Proof.
  revert w. induction texts as [|t texts IH]; intros w; [now split|].
  unfold after. cbn [for_each]. unfold bind. cbn [emit].
  destruct (IH (with_line w (Printed t))) as [E Hf].
  rewrite E. cbn [snd]. split; [reflexivity|]. now rewrite Hf.
Qed.

Lemma resample_batch_returns {B : Backend} (target_res : Qc) (method : GRA)
    (input_folder output_folder : string) (tifs : list string) (w : world) :
  Resample.batch target_res method input_folder output_folder tifs w
  = (Ok tt,
     after (Resample.batch target_res method input_folder output_folder tifs)
       w).
Proof.
  unfold after, Resample.batch.
  now rewrite for_each_returns by (intros x w'; apply resample_tif_returns).
Qed.

(** A choice from 1 to 5 has its method. *)
Lemma method_of_choice (choice : Z) :
  (1 <= choice <= 5)%Z ->
  exists m,
    (if ((choice <? 1) || (5 <? choice))%Z then None
     else Resample.resample_methods choice) = Some m.
Proof.
  intros Hrange.
  assert (Hcases : choice = 1 \/ choice = 2 \/ choice = 3 \/ choice = 4
                   \/ choice = 5) by lia.
  destruct Hcases as [->|[->|[->|[->| ->]]]]; now eexists.
Qed.

(** What the user typed decides the output folder and the method. *)
Lemma resample_script_cases {B : Backend} (a : Resample.answers) (w : world) :
  let input_folder := Resample.typed_input_folder a in
  let output_folder :=
    if negb (String.eqb (Str.lower (Resample.typed_use_default a)) "y")
    then Resample.typed_output_folder a
    else Path.join os_platform input_folder "resampled" in
  let chosen :=
    match Resample.typed_method_choice a with
    | Some choice =>
        if ((choice <? 1) || (5 <? choice))%Z then None
        else Resample.resample_methods choice
    | None => None
    end in
  let w0 := with_line w (Printed "==== 栅格重采样工具 ====") in
  Resample.script a w
  = if negb (bool_decide (is_Some (files w !! input_folder))
             || os_isdir input_folder)
    then (Exit 1,
          with_line w0 (Printed ("错误: 目录不存在: " +:+ input_folder)))
    else
      match os_makedirs output_folder with
      | Some e => (Raise e, w0)
      | None =>
          match Resample.typed_target_res a with
          | None => (Exit 1, with_line w0 (Printed "错误: 请输入有效的数值"))
          | Some target_res =>
              let w1 :=
                after (for_each Resample.menu
                         (fun text => emit (Printed text))) w0 in
              match chosen with
              | None =>
                  (Exit 1, with_line w1 (Printed "错误: 请输入1-5之间的数字"))
              | Some resample_method =>
                  match os_listdir input_folder with
                  | None => (Raise (OSError input_folder), w1)
                  | Some names =>
                      let tifs := Resample.tif_files names in
                      bind
                        (Resample.loop target_res resample_method
                           input_folder output_folder tifs)
                        (fun _ => emit (ResampleDone output_folder))
                        (with_line w1
                           (ResampleFound (Z.of_nat (List.length tifs))))
                  end
              end
          end
      end.
Proof.
  cbv zeta. unfold Resample.script. cbv zeta.
  unfold bind at 1. cbn [emit]. unfold bind at 1.
  cbn [os_path_exists files with_line].
  destruct (negb (bool_decide
                    (is_Some (files w !! Resample.typed_input_folder a))
                  || os_isdir (Resample.typed_input_folder a)));
    [reflexivity|].
  unfold bind at 1. unfold makedirs at 1.
  destruct (os_makedirs _); [reflexivity|]. cbn [ret].
  destruct (Resample.typed_target_res a) as [target_res|]; [|reflexivity].
  unfold bind at 1.
  rewrite (proj1 (print_each_returns Resample.menu _)).
  destruct (match Resample.typed_method_choice a with
            | Some choice =>
                if ((choice <? 1) || (5 <? choice))%Z then None
                else Resample.resample_methods choice
            | None => None
            end) as [resample_method|]; [|reflexivity].
  unfold bind at 1. unfold listdir at 1.
  destruct (os_listdir (Resample.typed_input_folder a)) as [names|];
    [|reflexivity].
  cbn [ret]. unfold bind at 1. cbn [emit]. reflexivity.
Qed.

(** X10: the resample script ends with exit code 1, and with every file
    as it was, when the input folder does not exist, when the resolution
    typed is not a number, and when the method typed is not one of 1 to
    5. *)
Theorem X10_resample_script_rejects (B : Backend) (a : Resample.answers)
    (w : world) :
  let input_folder := Resample.typed_input_folder a in
  let output_folder :=
    if negb (String.eqb (Str.lower (Resample.typed_use_default a)) "y")
    then Resample.typed_output_folder a
    else Path.join os_platform input_folder "resampled" in
  let run := Resample.script a w in
  (files w !! input_folder = None -> os_isdir input_folder = false ->
   fst run = Exit 1 /\ files (snd run) = files w)
  /\ (os_isdir input_folder = true -> os_makedirs output_folder = None ->
      Resample.typed_target_res a = None ->
      fst run = Exit 1 /\ files (snd run) = files w)
  /\ (os_isdir input_folder = true -> os_makedirs output_folder = None ->
      is_Some (Resample.typed_target_res a) ->
      (forall choice, Resample.typed_method_choice a = Some choice ->
                      (choice < 1 \/ 5 < choice)%Z) ->
      fst run = Exit 1 /\ files (snd run) = files w).
Proof.
  cbv zeta. rewrite resample_script_cases. cbv zeta.
  repeat apply conj.
  - intros Hf Hd. rewrite Hf, Hd. now split.
  - intros Hd Hm Hr. rewrite Hd, orb_true_r, Hm, Hr. now split.
  - intros Hd Hm [target_res Hr] Hc. rewrite Hd, orb_true_r, Hm, Hr.
    cbn [negb].
    assert (E : match Resample.typed_method_choice a with
                | Some choice =>
                    if ((choice <? 1) || (5 <? choice))%Z then None
                    else Resample.resample_methods choice
                | None => None
                end = None).
    { destruct (Resample.typed_method_choice a) as [choice|]; [|reflexivity].
      destruct (Hc choice eq_refl) as [H|H].
      - apply Z.ltb_lt in H. now rewrite H.
      - apply Z.ltb_lt in H. now rewrite H, orb_true_r. }
    rewrite E. split; [reflexivity|]. cbn [snd with_line files].
    now rewrite (proj2 (print_each_returns Resample.menu _)).
Qed.

Lemma X10_resample_script_rejects_witness :
  fst (@Resample.script Demo.posix
         {| Resample.typed_input_folder := "in";
            Resample.typed_use_default := "y";
            Resample.typed_output_folder := "";
            Resample.typed_target_res := Some (Finite (Qc_of_Z 30));
            Resample.typed_method_choice := Some 7 |} Demo.world0)
  = Exit 1.
Proof.
  apply (X10_resample_script_rejects Demo.posix
           {| Resample.typed_input_folder := "in";
              Resample.typed_use_default := "y";
              Resample.typed_output_folder := "";
              Resample.typed_target_res := Some (Finite (Qc_of_Z 30));
              Resample.typed_method_choice := Some 7 |} Demo.world0).
  - reflexivity.
  - reflexivity.
  - now eexists.
  - intros choice E. injection E as <-. lia.
Defined.

(** X11: once the input folder exists, the output folder can be made, the
    resolution typed is a finite number, the method is one of 1 to 5 and
    the folder can be listed, the resample script runs to its end
    whatever happens to the single files: it returns normally, its last
    line reports the output folder, and no file other than the output
    paths [output_folder/<int(resolution)>m_<name>] of the [.tif] entries
    has changed. *)
Theorem X11_resample_script_completes (B : Backend) (a : Resample.answers)
    (w : world) (target_res : Qc) (choice : Z) (names : list string) :
  let input_folder := Resample.typed_input_folder a in
  let output_folder :=
    if negb (String.eqb (Str.lower (Resample.typed_use_default a)) "y")
    then Resample.typed_output_folder a
    else Path.join os_platform input_folder "resampled" in
  os_isdir input_folder = true ->
  os_makedirs output_folder = None ->
  Resample.typed_target_res a = Some (Finite target_res) ->
  Resample.typed_method_choice a = Some choice ->
  (1 <= choice <= 5)%Z ->
  os_listdir input_folder = Some names ->
  exists w',
    Resample.script a w = (Ok tt, w')
    /\ last (console w') = Some (ResampleDone output_folder)
    /\ forall path,
         (forall f, In f names -> Str.endswith f ".tif" = true ->
                    path <> Path.join os_platform output_folder
                              (Resample.output_name target_res f)) ->
         files w' !! path = files w !! path.
Proof.
  cbv zeta. intros Hd Hm Hr Hc Hrange Hl.
  rewrite resample_script_cases. cbv zeta.
  set (output_folder :=
         if negb (String.eqb (Str.lower (Resample.typed_use_default a)) "y")
         then Resample.typed_output_folder a
         else Path.join os_platform (Resample.typed_input_folder a)
                "resampled") in *.
  rewrite Hd, orb_true_r, Hm, Hr, Hc, Hl. cbn [negb].
  destruct (method_of_choice choice Hrange) as [m ->].
  unfold bind. cbn [Resample.loop]. rewrite resample_batch_returns.
  cbn [emit].
  eexists. split; [reflexivity|]. split.
  - cbn [with_line console]. apply last_snoc.
  - intros path Hpath. cbn [with_line files]. unfold Resample.batch.
    rewrite (writes_within_for_each
               (fun p => exists f, In f (Resample.tif_files names)
                           /\ p = Path.join os_platform output_folder
                                    (Resample.output_name target_res f))).
    + cbn [with_line files].
      now rewrite (proj2 (print_each_returns Resample.menu _)).
    + intros f Hf.
      apply (writes_within_weaken
               (eq (Path.join os_platform output_folder
                      (Resample.output_name target_res f))));
        [|apply resample_tif_frame].
      intros p <-. now exists f.
    + intros (f & Hf & ->). apply List.filter_In in Hf.
      destruct Hf as [Hin Htif]. now apply (Hpath f).
Qed.

Lemma X11_resample_script_completes_witness :
  exists w',
    @Resample.script Demo.posix
      {| Resample.typed_input_folder := "in";
         Resample.typed_use_default := "n";
         Resample.typed_output_folder := "out";
         Resample.typed_target_res := Some (Finite (Qc_of_Z 60));
         Resample.typed_method_choice := Some 2 |} Demo.world0
    = (Ok tt, w')
    /\ last (console w') = Some (ResampleDone "out")
    /\ files w' !! "ref.tif" = Some (Raster Demo.reference).
Proof.
  destruct (X11_resample_script_completes Demo.posix
              {| Resample.typed_input_folder := "in";
                 Resample.typed_use_default := "n";
                 Resample.typed_output_folder := "out";
                 Resample.typed_target_res := Some (Finite (Qc_of_Z 60));
                 Resample.typed_method_choice := Some 2 |} Demo.world0
              (Qc_of_Z 60) 2 ["a.tif"; "b.tif"])
    as (w' & Hrun & Hlast & Hframe); try reflexivity; [lia|].
  exists w'. split; [exact Hrun|]. split; [exact Hlast|].
  rewrite Hframe; [reflexivity|].
  intros f [<-|[<-|[]]] _; vm_compute; discriminate.
Defined.

(** X20: [float()] also accepts texts such as [inf], [1e400] and [nan].
    With such a resolution the script passes every check, prints the
    menu and the number of files found, and then, if there is a [.tif]
    entry, ends at the first one with the exception that
    [int(target_res)] raises in the output name, [OverflowError] for an
    infinity and [ValueError] for NaN: no file is read or written and the
    closing line is never printed. *)
Theorem X20_resample_script_unbounded_resolution (B : Backend)
    (a : Resample.answers) (w : world) (target_res : pyfloat) (choice : Z)
    (names : list string) :
  let input_folder := Resample.typed_input_folder a in
  let output_folder :=
    if negb (String.eqb (Str.lower (Resample.typed_use_default a)) "y")
    then Resample.typed_output_folder a
    else Path.join os_platform input_folder "resampled" in
  os_isdir input_folder = true ->
  os_makedirs output_folder = None ->
  Resample.typed_target_res a = Some target_res ->
  (forall q, target_res <> Finite q) ->
  Resample.typed_method_choice a = Some choice ->
  (1 <= choice <= 5)%Z ->
  os_listdir input_folder = Some names ->
  Resample.tif_files names <> [] ->
  let run := Resample.script a w in
  fst run
  = Raise match target_res with
          | NaN => ValueError "cannot convert float NaN to integer"
          | _ => OverflowError "cannot convert float infinity to integer"
          end
  /\ files (snd run) = files w
  /\ last (console (snd run))
     = Some (ResampleFound (Z.of_nat (List.length (Resample.tif_files names)))).
Proof.
  cbv zeta. intros Hd Hm Hr Hinf Hc Hrange Hl Hsome.
  rewrite resample_script_cases. cbv zeta.
  rewrite Hd, orb_true_r, Hm, Hr, Hc, Hl. cbn [negb].
  destruct (method_of_choice choice Hrange) as [m ->].
  destruct (Resample.tif_files names) as [|f tifs] eqn:Etifs;
    [contradiction|].
  destruct target_res as [q| negative |]; [now destruct (Hinf q)| |];
    (split; [reflexivity|]); cbn [bind Resample.loop for_each snd fst];
    unfold bind; cbn [int_of_float raise snd with_line files console];
    (split; [now rewrite (proj2 (print_each_returns Resample.menu _))
            | apply last_snoc]).
Qed.

(** The script at the resolution [inf], on a folder of two files. *)
Lemma X20_resample_script_unbounded_resolution_witness :
  let run :=
    @Resample.script Demo.posix
      {| Resample.typed_input_folder := "in";
         Resample.typed_use_default := "y";
         Resample.typed_output_folder := "";
         Resample.typed_target_res := Some (Infinity false);
         Resample.typed_method_choice := Some 2 |} Demo.world0 in
  fst run = Raise (OverflowError "cannot convert float infinity to integer")
  /\ files (snd run) = files Demo.world0
  /\ last (console (snd run)) = Some (ResampleFound 2).
Proof.
  apply (X20_resample_script_unbounded_resolution Demo.posix
           {| Resample.typed_input_folder := "in";
              Resample.typed_use_default := "y";
              Resample.typed_output_folder := "";
              Resample.typed_target_res := Some (Infinity false);
              Resample.typed_method_choice := Some 2 |} Demo.world0
           (Infinity false) 2 ["a.tif"; "b.tif"]);
    try reflexivity; try discriminate; lia.
Defined.

End ResampleScript.

(** ** The clip script *)

Section ClipScript.

Local Open Scope string_scope.

(** X12: [validate_paths] writes no file and logs nothing (what it makes
    is the output directory); it returns normally exactly when the
    shapefile and the raster directory exist, the shapefile's name ends
    with [.shp] in any letter case, and the output directory can be made;
    a missing shapefile is reported before its extension is looked
    at. *)
Theorem X12_validate_paths (B : Backend)
    (shapefile_path raster_dir output_dir : string) (w : world) :
  let found path :=
    bool_decide (is_Some (files w !! path)) || os_isdir path in
  let run := Clip.validate_paths shapefile_path raster_dir output_dir w in
  files (snd run) = files w
  /\ console (snd run) = console w
  /\ (fst run = Ok tt
      <-> found shapefile_path = true /\ found raster_dir = true
          /\ Str.endswith (Str.lower shapefile_path) ".shp" = true
          /\ os_makedirs output_dir = None)
  /\ (found shapefile_path = false ->
      fst run
      = Raise (FileNotFoundError ("Shapefile not found: " +:+ shapefile_path)))
  /\ (found shapefile_path = true -> found raster_dir = true ->
      Str.endswith (Str.lower shapefile_path) ".shp" = false ->
      fst run = Raise (ValueError "Input shapefile must have .shp extension")).
Proof.
  cbv beta zeta. unfold Clip.validate_paths, bind, os_path_exists, makedirs.
  cbv beta iota.
  destruct (bool_decide (is_Some (files w !! shapefile_path))
            || os_isdir shapefile_path); cbn [negb]; cbv beta iota;
    [|repeat split; intros; unfold raise, ret in *; cbn [fst snd] in *;
      try reflexivity; try congruence; intuition congruence].
  destruct (bool_decide (is_Some (files w !! raster_dir))
            || os_isdir raster_dir); cbn [negb]; cbv beta iota;
    [|repeat split; intros; unfold raise, ret in *; cbn [fst snd] in *;
      try reflexivity; try congruence; intuition congruence].
  destruct (Str.endswith (Str.lower shapefile_path) ".shp"); cbn [negb];
    [|repeat split; intros; unfold raise, ret in *; cbn [fst snd] in *;
      try reflexivity; try congruence; intuition congruence].
  destruct (os_makedirs output_dir);
    repeat split; intros; unfold raise, ret in *; cbn [fst snd] in *;
      try reflexivity; try congruence; intuition congruence.
Qed.

Lemma X12_validate_paths_witness :
  fst (@Clip.validate_paths Demo.posix "Boundary.SHP" "in" "out" Demo.world0)
  = Ok tt
  /\ fst (@Clip.validate_paths Demo.posix "boundary.gpkg" "in" "out"
            Demo.world0)
     = Raise (ValueError "Input shapefile must have .shp extension").
Proof.
  destruct (X12_validate_paths Demo.posix "Boundary.SHP" "in" "out"
              Demo.world0) as (_ & _ & Hok & _).
  destruct (X12_validate_paths Demo.posix "boundary.gpkg" "in" "out"
              Demo.world0) as (_ & _ & _ & _ & Hext).
  split.
  - apply Hok. repeat split.
  - apply Hext; reflexivity.
Defined.

Lemma clip_try_frame {B : Backend} (input_raster output_raster : string)
    (shapes : list shape) (reference : option string) :
  writes_within (eq output_raster)
    (Clip.clip_try input_raster output_raster shapes reference)
  /\ quiet (Clip.clip_try input_raster output_raster shapes reference).
Proof.
  unfold Clip.clip_try, Clip.snap_to_reference, Clip.tight_crop,
    Clip.rasterio_write.
  split; frame; reflexivity.
Qed.

(** Whatever happens to one file, the clip returns [True] or [False],
    changes no file other than its output path, and logs one error line
    for the input exactly when it returns [False]. *)
Lemma clip_contained {B : Backend} (input_raster output_raster : string)
    (shapes : list shape) (reference : option string) (w : world) :
  exists (done : bool) (w' : world),
    Clip.clip_raster_with_shapefile input_raster output_raster shapes
      reference w = (Ok done, w')
    /\ (forall path, path <> output_raster ->
                     files w' !! path = files w !! path)
    /\ (if done then console w' = console w
        else exists e,
               console w' = (console w ++ [ClipError input_raster e])%list).
Proof.
  destruct (clip_try_frame input_raster output_raster shapes reference)
    as [Hfiles Hquiet].
  pose proof (clip_try_never_exits input_raster output_raster shapes
                reference w) as Hexit.
  specialize (Hquiet w). unfold after in Hquiet.
  assert (Hframe : forall path, path <> output_raster ->
            files (snd (Clip.clip_try input_raster output_raster shapes
                          reference w)) !! path = files w !! path).
  { intros path Hp. apply (Hfiles w path). congruence. }
  assert (Htrue : forall b w1,
            Clip.clip_try input_raster output_raster shapes reference w
            = (Ok b, w1) -> b = true).
  { intros b w1 H. unfold Clip.clip_try in H.
    apply bind_ok_inv in H as (src & w2 & _ & H).
    apply bind_ok_inv in H as ([out_image out_meta] & w3 & _ & H).
    apply bind_ok_inv in H as ([] & w4 & _ & H).
    apply bind_ok_inv in H as ([] & w5 & _ & H).
    now injection H as <- _. }
  unfold Clip.clip_raster_with_shapefile, try_except.
  destruct (Clip.clip_try input_raster output_raster shapes reference w)
    as [[b|e|c] w1] eqn:E; cbn [snd] in *.
  - rewrite (Htrue b w1 eq_refl). exists true, w1. now repeat split.
  - exists false. eexists. split; [reflexivity|]. split; [exact Hframe|].
    exists e. cbn. now rewrite Hquiet.
  - now destruct (Hexit c w1).
Qed.

(** X13: whatever happens to one file, [clip_raster_with_shapefile]
    returns [True] or [False], changes no file other than its output
    path (so never the source or the reference raster, unless the output
    is written over them), and logs one error line naming the input
    exactly when it returns [False]. *)
Theorem X13_clip_contained (B : Backend) (input_raster output_raster : string)
    (shapes : list shape) (reference : option string) (w : world) :
  exists (done : bool) (w' : world),
    Clip.clip_raster_with_shapefile input_raster output_raster shapes
      reference w = (Ok done, w')
    /\ (forall path, path <> output_raster ->
                     files w' !! path = files w !! path)
    /\ (done = true -> console w' = console w)
    /\ (done = false ->
        exists e, console w' = (console w ++ [ClipError input_raster e])%list).
Proof.
  destruct (clip_contained input_raster output_raster shapes reference w)
    as (done & w' & Hrun & Hframe & Hlog).
  exists done, w'. repeat split; try assumption.
  - now intros ->.
  - now intros ->.
Qed.

Lemma X13_clip_contained_witness :
  exists (done : bool) (w' : world),
    @Clip.clip_raster_with_shapefile Demo.posix "in/a.tif" "out/a.tif"
      Demo.corner (Some "ref.tif") Demo.world0 = (Ok done, w')
    /\ files w' !! "in/a.tif" = Some (Raster Demo.source)
    /\ files w' !! "ref.tif" = Some (Raster Demo.reference).
Proof.
  destruct (X13_clip_contained Demo.posix "in/a.tif" "out/a.tif" Demo.corner
              (Some "ref.tif") Demo.world0)
    as (done & w' & Hrun & Hframe & _).
  exists done, w'. split; [exact Hrun|].
  split; (rewrite Hframe by discriminate; reflexivity).
Defined.

Lemma rasterio_open_ok_inv {B : Backend} (path : string) (w w' : world)
    (r : raster) :
  Clip.rasterio_open path w = (Ok r, w') ->
  w' = w /\ files w !! path = Some (Raster r).
Proof.
  unfold Clip.rasterio_open.
  destruct (files w !! path) as [[r0|]|]; try discriminate.
  now intros [= -> ->].
Qed.

Lemma mask_ok_inv {B : Backend} (src : raster) (shapes : list shape)
    (args : MaskArgs) (w w' : world) (r : ndarray * AffineGrid) :
  Clip.mask src shapes args w = (Ok r, w') ->
  w' = w /\ rio_mask src shapes args = inr r.
Proof.
  unfold Clip.mask. destruct (rio_mask src shapes args); try discriminate.
  now intros [= -> ->].
Qed.

Lemma rasterio_write_ok_inv {B : Backend} (path : string) (m : meta)
    (image : ndarray) (w w' : world) :
  Clip.rasterio_write path m image w = (Ok tt, w') ->
  files w' !! path = Some (Raster {| r_meta := m; r_pixels := image |}).
Proof.
  unfold Clip.rasterio_write.
  destruct (rio_create path m); [discriminate|].
  unfold bind, put_file. destruct (rio_write m image); [discriminate|].
  intros [= <-]. cbn. apply lookup_insert_eq.
Qed.

(** A clip that returned [True]: the source it read, the image and the
    metadata that its branch produced, and the file it wrote. *)
Lemma clip_true_inv {B : Backend} (input_raster output_raster : string)
    (shapes : list shape) (reference : option string) (w w' : world) :
  Clip.clip_raster_with_shapefile input_raster output_raster shapes
    reference w = (Ok true, w') ->
  exists src out_image out_meta,
    files w !! input_raster = Some (Raster src)
    /\ (if Clip.truthy reference
        then Clip.snap_to_reference src shapes (default "" reference)
        else Clip.tight_crop src shapes) w
       = (Ok (out_image, out_meta), w)
    /\ files w' !! output_raster
       = Some (Raster {| r_meta := out_meta; r_pixels := out_image |}).
Proof.
  intros H. unfold Clip.clip_raster_with_shapefile, try_except in H.
  destruct (Clip.clip_try input_raster output_raster shapes reference w)
    as [[b|e|c] w1] eqn:E; try discriminate.
  injection H as -> ->. unfold Clip.clip_try in E.
  apply bind_ok_inv in E as (src & w2 & Hopen & E).
  apply rasterio_open_ok_inv in Hopen as [-> Hsrc].
  apply bind_ok_inv in E as ([out_image out_meta] & w3 & Hbranch & E).
  assert (Hw3 : w3 = w).
  { destruct (Clip.truthy reference).
    - unfold Clip.snap_to_reference in Hbranch.
      apply bind_ok_inv in Hbranch as (ref & w4 & Hopen & Hbranch).
      apply rasterio_open_ok_inv in Hopen as [-> _].
      apply bind_ok_inv in Hbranch as ([i t] & w5 & Hmask & Hbranch).
      apply mask_ok_inv in Hmask as [-> _]. now injection Hbranch.
    - unfold Clip.tight_crop in Hbranch.
      apply bind_ok_inv in Hbranch as ([i t] & w5 & Hmask & Hbranch).
      apply mask_ok_inv in Hmask as [-> _]. now injection Hbranch. }
  subst w3.
  apply bind_ok_inv in E as ([] & w4 & Hmk & E).
  apply bind_ok_inv in E as ([] & w5 & Hwrite & E).
  injection E as <-.
  exists src, out_image, out_meta. repeat split; try assumption.
  now apply rasterio_write_ok_inv in Hwrite.
Qed.

(** X14: a clip that returns [True] has written a GeoTIFF that keeps the
    source's pixel type, band count and nodata value (also when the
    source declares none); without a reference raster it also keeps the
    source's CRS, and its height and width are those of the image
    written. *)
Theorem X14_clip_output_metadata (B : Backend)
    (input_raster output_raster : string) (shapes : list shape)
    (reference : option string) (w w' : world) :
  Clip.clip_raster_with_shapefile input_raster output_raster shapes
    reference w = (Ok true, w') ->
  exists src out,
    files w !! input_raster = Some (Raster src)
    /\ files w' !! output_raster = Some (Raster out)
    /\ driver (r_meta out) = "GTiff"
    /\ dtype (r_meta out) = dtype (r_meta src)
    /\ count (r_meta out) = count (r_meta src)
    /\ nodata (r_meta out) = nodata (r_meta src)
    /\ (Clip.truthy reference = false ->
        crs (r_meta out) = crs (r_meta src)
        /\ height (r_meta out) = shape1 (r_pixels out)
        /\ width (r_meta out) = shape2 (r_pixels out)).
Proof.
  intros H. apply clip_true_inv in H
    as (src & out_image & out_meta & Hsrc & Hbranch & Hout).
  exists src, {| r_meta := out_meta; r_pixels := out_image |}.
  split; [exact Hsrc|]. split; [exact Hout|]. cbn [r_meta r_pixels].
  destruct (Clip.truthy reference).
  - unfold Clip.snap_to_reference in Hbranch.
    apply bind_ok_inv in Hbranch as (ref & w4 & _ & Hbranch).
    apply bind_ok_inv in Hbranch as ([i t] & w5 & _ & Hbranch).
    injection Hbranch as _ <- _. repeat split; discriminate.
  - unfold Clip.tight_crop in Hbranch.
    apply bind_ok_inv in Hbranch as ([i t] & w5 & _ & Hbranch).
    injection Hbranch as <- <- _. repeat split.
Qed.

Lemma X14_clip_output_metadata_witness :
  exists out,
    files (snd (@Clip.clip_raster_with_shapefile Demo.posix "in/a.tif"
                  "out/a.tif" Demo.corner None Demo.world0)) !! "out/a.tif"
    = Some (Raster out)
    /\ nodata (r_meta out) = Some (Qc_of_Z (-9999))
    /\ crs (r_meta out) = "EPSG:32649".
Proof.
  destruct (X14_clip_output_metadata Demo.posix "in/a.tif" "out/a.tif"
              Demo.corner None Demo.world0
              (snd (@Clip.clip_raster_with_shapefile Demo.posix "in/a.tif"
                      "out/a.tif" Demo.corner None Demo.world0)))
    as (src & out & Hsrc & Hout & _ & _ & _ & Hnodata & Htight).
  - vm_compute. reflexivity.
  - exists out. injection Hsrc as <-. split; [exact Hout|].
    split; [exact Hnodata|]. now apply Htight.
Defined.

(** X15: a clip whose input cannot be opened, or whose reference raster
    cannot be opened, returns [False], logs rasterio's error against the
    input file, and writes nothing. *)
Theorem X15_clip_unreadable (B : Backend)
    (input_raster output_raster : string) (shapes : list shape)
    (w : world) :
  (forall reference,
      (forall r, files w !! input_raster <> Some (Raster r)) ->
      Clip.clip_raster_with_shapefile input_raster output_raster shapes
        reference w
      = (Ok false,
         with_line w
           (ClipError input_raster
              (LibraryError ("RasterioIOError: " +:+ input_raster)))))
  /\ (forall reference_raster src,
         files w !! input_raster = Some (Raster src) ->
         reference_raster <> "" ->
         (forall r, files w !! reference_raster <> Some (Raster r)) ->
         Clip.clip_raster_with_shapefile input_raster output_raster shapes
           (Some reference_raster) w
         = (Ok false,
            with_line w
              (ClipError input_raster
                 (LibraryError ("RasterioIOError: " +:+ reference_raster))))).
Proof.
  split.
  - intros reference H. apply clip_caught.
    unfold Clip.clip_try, bind, Clip.rasterio_open.
    destruct (files w !! input_raster) as [[r|]|] eqn:E; try reflexivity.
    now destruct (H r).
  - intros reference_raster src Hsrc Hne H. apply clip_caught.
    assert (Ht : Clip.truthy (Some reference_raster) = true).
    { unfold Clip.truthy. now rewrite (proj2 (String.eqb_neq _ _) Hne). }
    unfold Clip.clip_try. rewrite Ht.
    cbv [bind Clip.rasterio_open Clip.snap_to_reference default from_option
         id].
    rewrite Hsrc.
    destruct (files w !! reference_raster) as [[r|]|] eqn:E; try reflexivity.
    now destruct (H r).
Qed.

Lemma X15_clip_unreadable_witness :
  @Clip.clip_raster_with_shapefile Demo.posix "in/b.tif" "out/b.tif"
    Demo.corner (Some "ref.tif") Demo.world0
  = (Ok false,
     with_line Demo.world0
       (ClipError "in/b.tif" (LibraryError "RasterioIOError: in/b.tif"))).
Proof.
  apply (proj1 (X15_clip_unreadable Demo.posix "in/b.tif" "out/b.tif"
                  Demo.corner Demo.world0)).
  intros r. vm_compute. discriminate.
Defined.

(** The clip loop from any counters: the lines it logs are one
    [ClipError] for each file it counts as failed. *)
Lemma process_files_log {B : Backend} (output_dir : string)
    (shapes : list shape) (reference : option string) (tifs : list string)
    (s0 f0 : Z) (w : world) :
  exists (successful failed : Z) (w' : world) (lines : list line),
    for_fold tifs (Clip.process_file output_dir shapes reference) (s0, f0) w
    = (Ok (successful, failed), w')
    /\ console w' = (console w ++ lines)%list
    /\ failed = f0 + Z.of_nat (List.length lines)
    /\ successful + failed = s0 + f0 + Z.of_nat (List.length tifs)
    /\ Forall (fun l => exists t e, In t tifs /\ l = ClipError t e) lines.
Proof.
  revert s0 f0 w. induction tifs as [|t tifs IH]; intros s0 f0 w.
  - exists s0, f0, w, []. cbn. rewrite app_nil_r.
    repeat split; try lia. constructor.
  - destruct (process_file_counts output_dir shapes reference s0 f0 t w)
      as (done & Hclip & Hturn).
    cbv zeta in Hclip.
    destruct (clip_contained t
                (Path.join os_platform output_dir
                   (Path.basename os_platform t)) shapes reference w)
      as (done' & w1 & Hrun & _ & Hlog).
    rewrite Hrun in Hclip at 1. injection Hclip as Hd Hw. subst done'.
    rewrite <- Hw in Hturn.
    cbn [for_fold]. unfold bind at 1. rewrite Hturn.
    destruct done.
    + destruct (IH (s0 + 1) f0 w1) as (s & f & w' & lines & E & Hc & Hf & Hs
                                       & Hall).
      exists s, f, w', lines. rewrite E, Hc, Hlog. cbn [List.length].
      repeat split; try lia.
      eapply Forall_impl; [exact Hall|].
      intros l (t' & e & Hin & ->). exists t', e. split; [now right | reflexivity].
    + destruct Hlog as [e Hlog].
      destruct (IH s0 (f0 + 1) w1) as (s & f & w' & lines & E & Hc & Hf & Hs
                                       & Hall).
      exists s, f, w', (ClipError t e :: lines). rewrite E, Hc, Hlog.
      rewrite <- List.app_assoc. cbn [List.length app].
      repeat split; try lia.
      constructor.
      * exists t, e. split; [now left | reflexivity].
      * eapply Forall_impl; [exact Hall|].
        intros l (t' & e' & Hin & ->). exists t', e'.
        split; [now right | reflexivity].
Qed.

(** X16: the clip loop over any list of files returns its two counters;
    they add up to the number of files, the number of failures is the
    number of lines the loop has logged, each of them the error of one of
    the files, and no file other than the output paths
    [output_dir/<base name>] has changed. *)
Theorem X16_clip_loop_accounts (B : Backend) (output_dir : string)
    (shapes : list shape) (reference : option string) (tifs : list string)
    (w : world) :
  exists (successful failed : Z) (w' : world) (lines : list line),
    Clip.process_files output_dir shapes reference tifs w
    = (Ok (successful, failed), w')
    /\ successful + failed = Z.of_nat (List.length tifs)
    /\ console w' = (console w ++ lines)%list
    /\ failed = Z.of_nat (List.length lines)
    /\ Forall (fun l => exists t e, In t tifs /\ l = ClipError t e) lines
    /\ forall path,
         (forall t, In t tifs ->
                    path <> Path.join os_platform output_dir
                              (Path.basename os_platform t)) ->
         files w' !! path = files w !! path.
Proof.
  destruct (process_files_log output_dir shapes reference tifs 0 0 w)
    as (s & f & w' & lines & E & Hc & Hf & Hs & Hall).
  exists s, f, w', lines. unfold Clip.process_files.
  repeat split; try assumption; try lia.
  intros path Hpath.
  replace w' with (after (for_fold tifs
                            (Clip.process_file output_dir shapes reference)
                            (0, 0)) w)
    by (unfold after; now rewrite E).
  apply (writes_within_for_fold
           (fun p => exists t, In t tifs
                               /\ p = Path.join os_platform output_dir
                                        (Path.basename os_platform t))).
  - intros [s1 f1] t Ht. unfold Clip.process_file.
    apply writes_within_try_except.
    + apply writes_within_bind.
      * apply (writes_within_weaken
                 (eq (Path.join os_platform output_dir
                        (Path.basename os_platform t)))).
        -- intros p <-. now exists t.
        -- unfold Clip.clip_raster_with_shapefile, Clip.clip_except.
           apply writes_within_try_except; [apply clip_try_frame|].
           intros e. frame.
      * intros []; frame.
    + intros e. frame.
  - intros (t & Ht & ->). now apply (Hpath t).
Qed.

Lemma X16_clip_loop_accounts_witness :
  exists (successful failed : Z) (w' : world),
    @Clip.process_files Demo.posix "out" Demo.corner (Some "ref.tif")
      ["in/a.tif"; "in/b.tif"] Demo.world0 = (Ok (successful, failed), w')
    /\ successful + failed = 2
    /\ files w' !! "ref.tif" = Some (Raster Demo.reference).
Proof.
  destruct (X16_clip_loop_accounts Demo.posix "out" Demo.corner
              (Some "ref.tif") ["in/a.tif"; "in/b.tif"] Demo.world0)
    as (s & f & w' & lines & Hrun & Hsum & _ & _ & _ & Hframe).
  exists s, f, w'. split; [exact Hrun|]. split; [exact Hsum|].
  rewrite Hframe; [reflexivity|].
  intros t [<-|[<-|[]]]; vm_compute; discriminate.
Defined.

(** X18: for the counters that the clip loop returns on a list that is not
    empty, the rate of the summary is defined (its division never
    divides by zero), lies between 0 and 100, and is 100 exactly when no
    file failed. *)
Theorem X18_success_rate (B : Backend) (output_dir : string)
    (shapes : list shape) (reference : option string) (tifs : list string)
    (w : world) :
  tifs <> [] ->
  exists (successful failed : Z) (w' : world) (rate : Qc),
    Clip.process_files output_dir shapes reference tifs w
    = (Ok (successful, failed), w')
    /\ Clip.success_rate successful (Z.of_nat (List.length tifs)) w'
       = (Ok rate, w')
    /\ (0 <= rate)%Qc /\ (rate <= Qc_of_Z 100)%Qc
    /\ (rate = Qc_of_Z 100 <-> failed = 0).
Proof.
  intros Hne.
  destruct (process_files_from output_dir shapes reference tifs 0 0 w)
    as (s & f & E & Hs & Hf & Hsum).
  set (n := Z.of_nat (List.length tifs)) in *.
  assert (Hn : 0 < n).
  { subst n. destruct tifs; [contradiction|]. cbn [List.length]. lia. }
  assert (Hn' : (0 < Qc_of_Z n)%Qc).
  { rewrite <- Z2Qc_inj_0. exact (proj1 (Z2Qc_inj_lt 0 n) Hn). }
  assert (Hn0 : Qc_of_Z n <> 0%Qc).
  { intros H. rewrite H in Hn'. now apply (Qclt_not_eq 0 0). }
  assert (Hrate : (Num.of_int s / Num.of_int n * Qc_of_Z 100
                   = Qc_of_Z (s * 100) / Qc_of_Z n)%Qc).
  { unfold Num.of_int. rewrite Z2Qc_inj_mul. field. exact Hn0. }
  eexists s, f, _, _. unfold Clip.process_files. split; [exact E|].
  unfold Clip.success_rate. destruct (decide (n = 0)); [lia|].
  split; [reflexivity|]. rewrite Hrate.
  assert (Hle : forall a b : Z,
             (a <= b)%Z -> (Qc_of_Z a / Qc_of_Z n <= Qc_of_Z b / Qc_of_Z n)%Qc).
  { intros a b Hab. unfold Qcdiv. apply Qcmult_le_mono_nonneg_r.
    - now apply Qclt_le_weak, Qcinv_pos.
    - exact (proj1 (Z2Qc_inj_le a b) Hab). }
  assert (Hfull : (Qc_of_Z (n * 100) / Qc_of_Z n = Qc_of_Z 100)%Qc).
  { rewrite Z2Qc_inj_mul. field. exact Hn0. }
  repeat split.
  - replace 0%Qc with (Qc_of_Z 0 / Qc_of_Z n)%Qc.
    + apply Hle. lia.
    + rewrite Z2Qc_inj_0. unfold Qcdiv. apply Qcmult_0_l.
  - rewrite <- Hfull. apply Hle. lia.
  - intros H. rewrite <- Hfull in H. unfold Qcdiv in H.
    assert (H' : (Qc_of_Z (s * 100) * / Qc_of_Z n * Qc_of_Z n
                  = Qc_of_Z (n * 100) * / Qc_of_Z n * Qc_of_Z n)%Qc)
      by now rewrite H.
    rewrite <- !Qcmult_assoc, !Qcmult_inv_l, !Qcmult_1_r in H' by exact Hn0.
    apply Z2Qc_inj in H'. lia.
  - intros ->. rewrite <- Hfull. do 2 f_equal. lia.
Qed.

Lemma X18_success_rate_witness :
  exists (successful failed : Z) (w' : world) (rate : Qc),
    @Clip.process_files Demo.posix "out" Demo.corner (Some "ref.tif")
      ["in/a.tif"; "in/b.tif"] Demo.world0 = (Ok (successful, failed), w')
    /\ Clip.success_rate successful 2 w' = (Ok rate, w')
    /\ (rate <= Qc_of_Z 100)%Qc.
Proof.
  destruct (X18_success_rate Demo.posix "out" Demo.corner (Some "ref.tif")
              ["in/a.tif"; "in/b.tif"] Demo.world0)
    as (s & f & w' & rate & Hrun & Hrate & _ & Hle & _).
  - discriminate.
  - now exists s, f, w', rate.
Defined.

Lemma validate_paths_cases {B : Backend}
    (shapefile_path raster_dir output_dir : string) (w : world) :
  Clip.validate_paths shapefile_path raster_dir output_dir w = (Ok tt, w)
  \/ exists e,
       Clip.validate_paths shapefile_path raster_dir output_dir w
       = (Raise e, w).
Proof.
  unfold Clip.validate_paths, bind, os_path_exists, makedirs.
  cbv beta iota.
  destruct (bool_decide (is_Some (files w !! shapefile_path))
            || os_isdir shapefile_path); cbn [negb]; cbv beta iota;
    [|right; now eexists].
  destruct (bool_decide (is_Some (files w !! raster_dir))
            || os_isdir raster_dir); cbn [negb]; cbv beta iota;
    [|right; now eexists].
  destruct (Str.endswith (Str.lower shapefile_path) ".shp"); cbn [negb];
    [|right; now eexists].
  destruct (os_makedirs output_dir); [right; now eexists | now left].
Qed.

Lemma setup_logging_done {B : Backend} (w : world) :
  os_makedirs "logs" = None ->
  logging_FileHandler Clip.log_file = None ->
  Clip.setup_logging w = (Ok tt, w).
Proof.
  intros Hlogs Hfile. unfold Clip.setup_logging, bind, makedirs.
  now rewrite Hlogs, Hfile.
Qed.

Lemma setup_logging_fails {B : Backend} (w : world) (e : exn) :
  os_makedirs "logs" = Some e
  \/ (os_makedirs "logs" = None
      /\ logging_FileHandler Clip.log_file = Some e) ->
  Clip.setup_logging w = (Raise e, w).
Proof.
  unfold Clip.setup_logging, bind, makedirs.
  intros [Hlogs | [Hlogs Hfile]]; rewrite Hlogs; [reflexivity|].
  now rewrite Hfile.
Qed.

(** X17: once the logging is set up, that is the log directory could be
    made and the log file opened, the clip script never ends with
    [exit]; an exception that leaves it has been logged as critical in
    its last line; and when it returns normally its last line is either
    the warning that no TIF file was found, no raster having been
    written, or the summary, whose total is the number of files found
    (above zero) and whose two counters add up to it. *)
Theorem X17_clip_main_outcomes (B : Backend) (p : Clip.paths) (w : world) :
  os_makedirs "logs" = None ->
  logging_FileHandler Clip.log_file = None ->
  let run := Clip.main_on p w in
  let total :=
    Z.of_nat (List.length (Clip.glob_tif (Clip.raster_dir p))) in
  match fst run with
  | Ok _ =>
      (total = 0
       /\ last (console (snd run))
          = Some (Warning "No TIF files found in the specified directory!")
       /\ files (snd run) = files w)
      \/ (0 < total
          /\ exists successful failed,
               last (console (snd run))
               = Some (ClipSummary total successful failed
                         (Path.basename os_platform
                            (Clip.reference_raster_path p)))
               /\ 0 <= successful /\ 0 <= failed
               /\ successful + failed = total)
  | Raise e => last (console (snd run)) = Some (ClipCritical e)
  | Exit _ => False
  end.
Proof.
  intros Hlogs Hfile. cbv zeta.
  unfold Clip.main_on.
  cbv [bind emit ret raise try_except os_path_exists].
  rewrite (setup_logging_done w Hlogs Hfile). cbv beta iota.
  set (w0 := with_line w (Info "Starting raster clipping process...")).
  destruct (validate_paths_cases (Clip.shapefile_path p) (Clip.raster_dir p)
              (Clip.output_dir p) w0) as [E | [e E]]; rewrite E;
    [|cbn [fst snd with_line console]; apply last_snoc].
  cbn [files with_line].
  destruct (negb _);
    [cbn [fst snd with_line console]; apply last_snoc|].
  destruct (gpd_read_file (Clip.shapefile_path p)) as [e|shapes];
    [cbn [fst snd with_line console]; apply last_snoc|].
  destruct (Z.of_nat (List.length (Clip.glob_tif (Clip.raster_dir p))) =? 0)%Z
    eqn:Hzero.
  - apply Z.eqb_eq in Hzero. cbn [fst snd with_line console files].
    left. repeat split; [exact Hzero | apply last_snoc].
  - apply Z.eqb_neq in Hzero.
    destruct (process_files_from (Clip.output_dir p) shapes
                (Some (Clip.reference_raster_path p))
                (Clip.glob_tif (Clip.raster_dir p)) 0 0
                (with_line
                   (with_line (with_line w0 (Info "Reading shapefile..."))
                      (Info ("Using raster as reference: "
                             +:+ Path.basename os_platform
                                   (Clip.reference_raster_path p))))
                   (Info ("Found "
                          +:+ pretty
                                (Z.of_nat
                                   (List.length
                                      (Clip.glob_tif (Clip.raster_dir p))))
                          +:+ " TIF files to process"))))
      as (s & f & E' & Hs & Hf & Hsum).
    unfold Clip.process_files. rewrite E'.
    cbn [fst snd with_line console]. right. split; [lia|].
    exists s, f. repeat split; try lia. apply last_snoc.
Qed.

Lemma X17_clip_main_outcomes_witness :
  exists successful failed,
    last (console (snd (@Clip.main_on Demo.posix
                          {| Clip.shapefile_path := "boundary.shp";
                             Clip.raster_dir := "in";
                             Clip.output_dir := "out";
                             Clip.reference_raster_path := "ref.tif" |}
                          Demo.world0)))
    = Some (ClipSummary 2 successful failed "ref.tif")
    /\ successful + failed = 2.
Proof.
  pose proof (X17_clip_main_outcomes Demo.posix
                {| Clip.shapefile_path := "boundary.shp";
                   Clip.raster_dir := "in";
                   Clip.output_dir := "out";
                   Clip.reference_raster_path := "ref.tif" |}
                Demo.world0 eq_refl eq_refl) as H.
  cbv zeta in H.
  replace (fst (@Clip.main_on Demo.posix
                  {| Clip.shapefile_path := "boundary.shp";
                     Clip.raster_dir := "in";
                     Clip.output_dir := "out";
                     Clip.reference_raster_path := "ref.tif" |}
                  Demo.world0)) with (@Ok unit tt) in H
    by (vm_compute; reflexivity).
  destruct H as [[H _] | (_ & s & f & Hlast & _ & _ & Hsum)].
  - vm_compute in H. discriminate.
  - exists s, f. split; [exact Hlast | exact Hsum].
Defined.

(** X21: [main] sets the logging up before its [try]: when the log
    directory cannot be made, or the log file cannot be opened, the
    script ends with that exception, with nothing logged, so without a
    critical line, and with no file changed. *)
Theorem X21_clip_main_unlogged_failure (B : Backend) (p : Clip.paths)
    (w : world) (e : exn) :
  os_makedirs "logs" = Some e
  \/ (os_makedirs "logs" = None
      /\ logging_FileHandler Clip.log_file = Some e) ->
  Clip.main_on p w = (Raise e, w).
Proof.
  intros H. unfold Clip.main_on. unfold bind at 1.
  now rewrite (setup_logging_fails w e H).
Qed.

(** The script where the log file cannot be opened. *)
Lemma X21_clip_main_unlogged_failure_witness :
  @Clip.main_on Demo.no_log
    {| Clip.shapefile_path := "boundary.shp"; Clip.raster_dir := "in";
       Clip.output_dir := "out"; Clip.reference_raster_path := "ref.tif" |}
    Demo.world0
  = (Raise
       (OSError
          "[Errno 13] Permission denied: 'logs/clip_raster_20250301_093000.log'"),
     Demo.world0).
Proof.
  apply (X21_clip_main_unlogged_failure Demo.no_log).
  right. split; reflexivity.
Defined.

Lemma existsb_app_char (p : ascii -> bool) (a b : string) (c : ascii) :
  p c = true ->
  existsb p (list_ascii_of_string (a +:+ String c b)) = true.
Proof.
  intros Hc. induction a as [|x a IH].
  - rewrite app_nil. cbn. now rewrite Hc.
  - rewrite app_cons. cbn. now rewrite IH, orb_true_r.
Qed.

Lemma after_last_none (p : ascii -> bool) (b : string) :
  existsb p (list_ascii_of_string b) = false -> Str.after_last p b = b.
Proof.
  destruct b as [|c b]; [reflexivity|]. cbn. intros H.
  apply orb_false_iff in H as [Hc Hb]. now rewrite Hb, Hc.
Qed.

Lemma after_last_app (p : ascii -> bool) (a b : string) (c : ascii) :
  p c = true -> existsb p (list_ascii_of_string b) = false ->
  Str.after_last p (a +:+ String c b) = b.
Proof.
  intros Hc Hb. induction a as [|x a IH].
  - rewrite app_nil. cbn. now rewrite Hb, Hc.
  - rewrite app_cons. cbn [Str.after_last].
    now rewrite existsb_app_char.
Qed.

(** X19: [os.path.basename] undoes [os.path.join] on a plain file name
    (one without a separator; the directory is not a bare drive), so the
    clip batch writes each output under the output directory with the
    file name of its input. *)
Theorem X19_basename_of_join (pf : platform) (dir output_dir f : string) :
  existsb (Path.is_sep pf) (list_ascii_of_string f) = false ->
  Str.endswith dir ":" = false ->
  Path.basename pf (Path.join pf dir f) = f
  /\ Path.join pf output_dir (Path.basename pf (Path.join pf dir f))
     = Path.join pf output_dir f.
Proof.
  intros Hf Hcolon.
  assert (H : Path.basename pf (Path.join pf dir f) = f).
  { unfold Path.basename, Path.join.
    destruct (String.eqb dir ""); [now apply after_last_none|].
    destruct (Path.ends_with_sep pf dir) eqn:Hsep.
    - assert (Hend : exists a c, dir = a +:+ String c ""
                                 /\ Path.is_sep pf c = true).
      { destruct pf; cbn [Path.ends_with_sep] in Hsep.
        - apply endswith_spec in Hsep as [a ->]. now exists a, "/"%char.
        - rewrite Hcolon, orb_false_r in Hsep.
          apply orb_true_iff in Hsep as [Hsep|Hsep];
            apply endswith_spec in Hsep as [a ->];
            [now exists a, "/"%char | now exists a, "\"%char]. }
      destruct Hend as (a & c & -> & Hc).
      rewrite app_assoc, app_cons, app_nil. now apply after_last_app.
    - assert (Hs : exists c, Path.sep pf = String c ""
                             /\ Path.is_sep pf c = true).
      { destruct pf; [now exists "/"%char | now exists "\"%char]. }
      destruct Hs as (c & -> & Hc).
      rewrite app_cons, app_nil. now apply after_last_app. }
  split; [exact H | now rewrite H].
Qed.

Lemma X19_basename_of_join_witness :
  Path.basename Nt (Path.join Nt "D:\rasters" "ndvi_q1.tif") = "ndvi_q1.tif"
  /\ Path.join Nt "D:\clipped"
       (Path.basename Nt (Path.join Nt "D:\rasters" "ndvi_q1.tif"))
     = "D:\clipped\ndvi_q1.tif".
Proof.
  destruct (X19_basename_of_join Nt "D:\rasters" "D:\clipped" "ndvi_q1.tif")
    as [H1 H2]; [reflexivity | reflexivity |].
  split; [exact H1|]. rewrite H2. reflexivity.
Defined.

End ClipScript.
